(** * ValoPro: match normalisation, keyword filter and alert scheduler

    A shallow embedding of [utils/vlr_api.py] and of the pure and
    scheduling parts of [cogs/tracker.py], followed by the properties of
    the specification that concern them, and then by the reply helpers and
    the [/live] command of [cogs/tracker.py] with further properties of
    the code.

    Python's dynamically typed JSON values are an inductive type [val];
    dictionaries are finite maps from strings.  Code that can raise is
    written in the error monad [res]; the scheduler tick, which also
    mutates the cog's state and reads the clock, is written in the
    state-and-error monad [M]. *)

From Stdlib Require Import ZArith String Ascii Lia.
From Stdlib Require Import SpecFloat.
From stdpp Require Import gmap strings list fin_maps pretty.

#[local] Set Warnings "-register-all".
#[local] Open Scope string_scope.
#[local] Open Scope Z_scope.

(** ** Values *)

(** What [json.loads] can produce.  A float is kept as the sign, mantissa
    and exponent of its IEEE value. *)
Inductive val : Type :=
  | VNone
  | VBool (b : bool)
  | VInt (z : Z)
  | VFloat (f : spec_float)
  | VStr (s : string)
  | VList (l : list val)
  | VDict (d : gmap string val).

Abbreviation dict := (gmap string val).

(** ** Exceptions *)

Inductive exn : Type :=
  | AttributeError
  | TypeError
  | ValueError
  | OverflowError
  | OSError
  | KeyError
  | DiscordException.

Inductive res (A : Type) : Type :=
  | Ret (a : A)
  | Raise (e : exn).
Arguments Ret {A} a.
Arguments Raise {A} e.

Definition bind {A B : Type} (m : res A) (k : A -> res B) : res B :=
  match m with
  | Ret a => k a
  | Raise e => Raise e
  end.

Notation "x <- m ;; k" := (bind m (fun x => k))
  (at level 100, m at next level, right associativity).

(** [try: body except Exception: handler]; every [exn] above is a subclass
    of [Exception]. *)
Definition try_except {A : Type} (body : res A) (handler : exn -> res A) : res A :=
  match body with
  | Ret a => Ret a
  | Raise e => handler e
  end.

Definition returns {A : Type} (m : res A) : Prop := exists a, m = Ret a.

(** ** Built-in operations *)

Definition float_is_zero (f : spec_float) : bool :=
  match f with
  | S754_zero _ => true
  | _ => false
  end.

(** [bool(v)] *)
Definition truthy (v : val) : bool :=
  match v with
  | VNone => false
  | VBool b => b
  | VInt z => negb (z =? 0)
  | VFloat f => negb (float_is_zero f)
  | VStr s => negb (String.eqb s "")
  | VList l => match l with [] => false | _ => true end
  | VDict d => negb (bool_decide (d = ∅))
  end.

(** [a or b] *)
Definition py_or (a b : val) : val := if truthy a then a else b.

(** [d.get(k, default)] on a dictionary *)
Definition dict_get (d : dict) (k : string) (default : val) : val :=
  match d !! k with
  | Some v => v
  | None => default
  end.

(** [v.get(k, default)] on an arbitrary value: only dictionaries have the
    method. *)
Definition attr_get (v : val) (k : string) (default : val) : res val :=
  match v with
  | VDict d => Ret (dict_get d k default)
  | _ => Raise AttributeError
  end.

Definition lower_ascii (c : ascii) : ascii :=
  let n := N_of_ascii c in
  if ((65 <=? n) && (n <=? 90))%N then ascii_of_N (n + 32) else c.

(** What [s.lower()] does on ASCII text: the letters A to Z are folded and
    every other character is kept. *)
Fixpoint ascii_lower (s : string) : string :=
  match s with
  | EmptyString => EmptyString
  | String c r => String (lower_ascii c) (ascii_lower r)
  end.

(** Strings are the UTF-8 bytes of the text.  A text is ASCII when every
    byte is below 128. *)
Definition ascii_text (s : string) : bool :=
  forallb (fun c => (N_of_ascii c <? 128)%N) (list_ascii_of_string s).

(** [needle in hay] for two strings *)
Fixpoint str_contains (needle hay : string) : bool :=
  String.prefix needle hay ||
  match hay with
  | EmptyString => false
  | String _ r => str_contains needle r
  end.

(** [int(f)] for a float: truncation toward zero. *)
Definition float_to_int (f : spec_float) : res Z :=
  match f with
  | S754_zero _ => Ret 0
  | S754_infinity _ => Raise OverflowError
  | S754_nan => Raise ValueError
  | S754_finite s m e =>
      let a := if 0 <=? e then Z.pos m * 2 ^ e else Z.pos m / 2 ^ (- e) in
      Ret (if s then - a else a)
  end.

(** ** The process environment *)

(** What the interpreter and the operating system supply:
    - [format_value v] is the text an f-string puts for [{v}];
    - [int_of_str s] is [int(s)] on a string;
    - [local_epoch t] is [datetime.timestamp()] for the naive local time
      that lies [t] seconds after 1970-01-01 00:00:00 on the wall clock
      (the identity in a process whose time zone is UTC);
    - [clock k] is the value of the [k]-th call of [int(time.time())];
    - [ALERT_LEAD_MINUTES] is the module constant read at import;
    - [str_lower s] is [s.lower()], which follows the Unicode case mapping
      and depends on the letters around (a final sigma);
    - [delivery k] is the exception the [k]-th [ch.send] of the scheduler
      raises, [None] when that post succeeds. *)
Class Runtime : Type := {
  format_value : val -> string;
  int_of_str : string -> res Z;
  local_epoch : Z -> res Z;
  clock : nat -> Z;
  ALERT_LEAD_MINUTES : Z;
  str_lower : string -> string;
  delivery : nat -> option exn;
}.

(** [v.lower()] on an arbitrary value *)
Definition attr_lower `{Runtime} (v : val) : res string :=
  match v with
  | VStr s => Ret (str_lower s)
  | _ => Raise AttributeError
  end.

(** [int(v)] *)
Definition py_int `{Runtime} (v : val) : res Z :=
  match v with
  | VInt z => Ret z
  | VBool b => Ret (if b then 1 else 0)
  | VFloat f => float_to_int f
  | VStr s => int_of_str s
  | VNone | VList _ | VDict _ => Raise TypeError
  end.

(** ** utils/vlr_api.py *)

Module vlr_api.
Section vlr_api.
Context `{!Runtime}.

(** [get_upcoming].  [response] is the outcome of [_fetch_json]: the
    decoded body, or the exception the request raised. *)
Definition get_upcoming (response : res val) : res val :=
  data <- response;;
  d <- attr_get data "data" (VDict ∅);;
  s <- attr_get d "segments" (VList []);;
  Ret (py_or s (VList [])).

(** [get_live] has the same body; only the query of the request differs. *)
Definition get_live (response : res val) : res val :=
  data <- response;;
  d <- attr_get data "data" (VDict ∅);;
  s <- attr_get d "segments" (VList []);;
  Ret (py_or s (VList [])).

Definition normalize_match (m : dict) : res dict :=
  n1 <- attr_get (dict_get m "team1" (VDict ∅)) "name" VNone;;
  let team1 := py_or (py_or n1 (dict_get m "team_1" (VStr ""))) (VStr "") in
  n2 <- attr_get (dict_get m "team2" (VDict ∅)) "name" VNone;;
  let team2 := py_or (py_or n2 (dict_get m "team_2" (VStr ""))) (VStr "") in
  ev <- attr_get (dict_get m "tournament" (VDict ∅)) "name" VNone;;
  let event := py_or (py_or ev (dict_get m "event" (VStr ""))) (VStr "") in
  let status := dict_get m "status" (VStr "") in
  let time_unix :=
    py_or (py_or (dict_get m "time_unix" VNone) (dict_get m "unix_time" VNone))
          (VInt 0) in
  let match_id :=
    py_or (py_or (dict_get m "match_id" VNone) (dict_get m "id" VNone))
          (VStr "") in
  let url :=
    py_or (dict_get m "url" VNone)
          (if truthy match_id
           then VStr ("https://www.vlr.gg/" +:+ format_value match_id)
           else VStr "") in
  let score := py_or (dict_get m "score" VNone) (dict_get m "maps" (VList [])) in
  rg <- attr_get (dict_get m "tournament" (VDict ∅)) "region" VNone;;
  let region := py_or (py_or rg (dict_get m "region" (VStr ""))) (VStr "") in
  t <- (if truthy time_unix then py_int time_unix else Ret 0);;
  Ret (list_to_map
         [("team1", team1); ("team2", team2); ("event", event);
          ("status", status); ("time_unix", VInt t); ("match_id", match_id);
          ("url", url); ("score", score); ("region", region)]).

(** [any(needle in (f or "").lower() for f in fields)]: the generator is
    consumed from the left and stops at the first hit. *)
Fixpoint any_field (needle : string) (fields : list val) : res bool :=
  match fields with
  | [] => Ret false
  | f :: rest =>
      s <- attr_lower (py_or f (VStr ""));;
      if str_contains needle s then Ret true else any_field needle rest
  end.

Definition _ok (needle : string) (m : val) : res bool :=
  ev <- attr_get m "event" (VStr "");;
  t1 <- attr_get m "team1" (VStr "");;
  t2 <- attr_get m "team2" (VStr "");;
  rg <- attr_get m "region" (VStr "");;
  any_field needle [ev; t1; t2; rg].

(** [[m for m in matches if ok(m)]] *)
Fixpoint comprehension (ok : val -> res bool) (matches : list val) : res (list val) :=
  match matches with
  | [] => Ret []
  | m :: rest =>
      b <- ok m;;
      out <- comprehension ok rest;;
      Ret (if b then m :: out else out)
  end.

Definition filter_matches (matches : list val) (needle : string) : res (list val) :=
  let needle := str_lower needle in
  comprehension (_ok needle) matches.

End vlr_api.
End vlr_api.

(** ** The [datetime] calls of [parse_unix]

    [datetime.strptime(s, "%Y-%m-%d %H:%M:%S")] compiles the format to the
    regular expression
    [(\d\d\d\d)-(1[0-2]|0[1-9]|[1-9])-(3[01]|[12]\d|0[1-9]|[1-9]| [1-9])\s+(2[0-3]|[01]\d|\d):([0-5]\d|\d):(6[01]|[0-5]\d|\d)],
    matches it at the start of [s], rejects text left over, and builds the
    [datetime] from the six numbers, which checks their ranges.  Each
    separator is a non-digit, so a numeric group is the run of one or two
    digits in front of it, accepted when its value is in the group's range.
    The model reads ASCII digits and white space. *)

Record datetime : Type := {
  year : Z; month : Z; day : Z; hour : Z; minute : Z; second : Z
}.

Definition is_digit (c : ascii) : bool :=
  let n := N_of_ascii c in ((48 <=? n) && (n <=? 57))%N.

Definition digit_val (c : ascii) : Z := Z.of_N (N_of_ascii c) - 48.

Definition is_space (c : ascii) : bool :=
  let n := N_of_ascii c in
  (((9 <=? n) && (n <=? 13)) || ((28 <=? n) && (n <=? 32)))%N.

Definition expect (c : ascii) (s : string) : option string :=
  match s with
  | String a r => if Ascii.eqb a c then Some r else None
  | EmptyString => None
  end.

Definition digits12 (s : string) : option (Z * string) :=
  match s with
  | String a r =>
      if is_digit a then
        match r with
        | String b r' =>
            if is_digit b then Some (10 * digit_val a + digit_val b, r')
            else Some (digit_val a, r)
        | EmptyString => Some (digit_val a, r)
        end
      else None
  | EmptyString => None
  end.

Definition digits4 (s : string) : option (Z * string) :=
  match s with
  | String a (String b (String c (String d r))) =>
      if is_digit a && is_digit b && is_digit c && is_digit d
      then Some (1000 * digit_val a + 100 * digit_val b
                 + 10 * digit_val c + digit_val d, r)
      else None
  | _ => None
  end.

(** The day group also takes a space followed by one digit. *)
Definition day_field (s : string) : option (Z * string) :=
  match s with
  | String " " (String b r) => if is_digit b then Some (digit_val b, r) else None
  | _ => digits12 s
  end.

Fixpoint drop_spaces (s : string) : string :=
  match s with
  | String a r => if is_space a then drop_spaces r else s
  | EmptyString => EmptyString
  end.

Definition spaces1 (s : string) : option string :=
  match s with
  | String a r => if is_space a then Some (drop_spaces r) else None
  | EmptyString => None
  end.

Definition in_range (lo hi x : Z) : option unit :=
  if (lo <=? x) && (x <=? hi) then Some tt else None.

Definition match_format (s : string) : option datetime :=
  '(y, s) ← digits4 s;
  s ← expect "-" s;
  '(mo, s) ← digits12 s;
  _ ← in_range 1 12 mo;
  s ← expect "-" s;
  '(d, s) ← day_field s;
  _ ← in_range 1 31 d;
  s ← spaces1 s;
  '(h, s) ← digits12 s;
  _ ← in_range 0 23 h;
  s ← expect ":" s;
  '(mi, s) ← digits12 s;
  _ ← in_range 0 59 mi;
  s ← expect ":" s;
  '(se, s) ← digits12 s;
  _ ← in_range 0 61 se;
  if String.eqb s "" then
    Some {| year := y; month := mo; day := d;
            hour := h; minute := mi; second := se |}
  else None.

Definition is_leap (y : Z) : bool :=
  (y mod 4 =? 0) && (negb (y mod 100 =? 0) || (y mod 400 =? 0)).

Definition days_in_month (y m : Z) : Z :=
  if m =? 2 then (if is_leap y then 29 else 28)
  else if (m =? 4) || (m =? 6) || (m =? 9) || (m =? 11) then 30
  else 31.

Definition valid_datetime (dt : datetime) : bool :=
  (1 <=? year dt) && (1 <=? day dt)
  && (day dt <=? days_in_month (year dt) (month dt))
  && (second dt <=? 59).

Definition strptime (s : string) : res datetime :=
  match match_format s with
  | Some dt => if valid_datetime dt then Ret dt else Raise ValueError
  | None => Raise ValueError
  end.

Definition days_before_year (y : Z) : Z :=
  (y - 1) * 365 + (y - 1) / 4 - (y - 1) / 100 + (y - 1) / 400.

Definition days_before_month (y m : Z) : Z :=
  foldr Z.add 0 (map (days_in_month y) (seqZ 1 (m - 1))).

(** Seconds between 1970-01-01 00:00:00 and [dt] on one wall clock;
    719163 is the ordinal of 1970-01-01. *)
Definition civil_seconds (dt : datetime) : Z :=
  (days_before_year (year dt) + days_before_month (year dt) (month dt)
   + day dt - 719163) * 86400
  + hour dt * 3600 + minute dt * 60 + second dt.

(** [int(dt.timestamp())] for a naive [dt] *)
Definition timestamp `{Runtime} (dt : datetime) : res Z :=
  local_epoch (civil_seconds dt).

(** ** cogs/tracker.py *)

(** [discord.Embed]: the title, description and colour given to the
    constructor, the fields added (name, value, inline) and the footer. *)
Record Embed : Type := {
  title : string;
  description : string;
  color : Z;
  fields : list (string * string * bool);
  footer : string
}.

(** The state a scheduler tick works on: the cog's [_announced_ids], the
    messages sent to the alert channel so far (oldest first, each embed
    kept with the record it was built from), how many times the clock
    has been read, and how many times [ch.send] has been called. *)
Record world : Type := {
  announced_ids : list val;
  sent : list (dict * Embed);
  time_reads : nat;
  send_calls : nat
}.

(** Statements that may raise and that act on the world.  An exception
    leaves the effects that came before it in place. *)
Definition M (A : Type) : Type := world -> res A * world.

Definition m_ret {A : Type} (a : A) : M A := fun w => (Ret a, w).

Definition m_bind {A B : Type} (m : M A) (k : A -> M B) : M B :=
  fun w =>
    match m w with
    | (Ret a, w') => k a w'
    | (Raise e, w') => (Raise e, w')
    end.

Notation "x <~ m ;; k" := (m_bind m (fun x => k))
  (at level 100, m at next level, right associativity).

Definition lift {A : Type} (r : res A) : M A := fun w => (r, w).

(** [d[k]] *)
Definition subscript (d : dict) (k : string) : res val :=
  match d !! k with
  | Some v => Ret v
  | None => Raise KeyError
  end.

Definition is_none (v : val) : bool :=
  match v with
  | VNone => true
  | _ => false
  end.

(** [isinstance(v, int)]; [bool] is a subclass of [int]. *)
Definition isinstance_int (v : val) : bool :=
  match v with
  | VInt _ | VBool _ => true
  | _ => false
  end.

Definition isinstance_str (v : val) : bool :=
  match v with
  | VStr _ => true
  | _ => false
  end.

(** Whether [hash(v)] is defined. *)
Definition hashable (v : val) : bool :=
  match v with
  | VList _ | VDict _ => false
  | _ => true
  end.

(** The integer a float is equal to, when there is one. *)
Definition float_integral (f : spec_float) : option Z :=
  match f with
  | S754_zero _ => Some 0
  | S754_finite s m e =>
      if 0 <=? e then Some ((if s then -1 else 1) * (Z.pos m * 2 ^ e))
      else if Z.pos m mod 2 ^ (- e) =? 0
           then Some ((if s then -1 else 1) * (Z.pos m / 2 ^ (- e)))
           else None
  | _ => None
  end.

(** [a == b] on hashable values: strings by content, numbers by value
    (so [True == 1 == 1.0]), [None] with itself. *)
Definition py_eq (a b : val) : bool :=
  let int_of v :=
    match v with
    | VInt z => Some z
    | VBool b => Some (if b then 1 else 0)
    | VFloat f => float_integral f
    | _ => None
    end in
  match a, b with
  | VNone, VNone => true
  | VStr s, VStr t => String.eqb s t
  | VFloat f, VFloat g => SFeqb f g
  | _, _ =>
      match int_of a, int_of b with
      | Some x, Some y => x =? y
      | _, _ => false
      end
  end.

Module tracker.
Import vlr_api.
Section tracker.
Context `{!Runtime}.

Definition fmt_delta (seconds : Z) : string :=
  if seconds <=? 0 then "now"
  else
    let m := seconds / 60 in
    let h := m / 60 in
    let m := m mod 60 in
    if negb (h =? 0) then pretty h +:+ "h " +:+ pretty m +:+ "m"
    else pretty m +:+ "m".

(** [int(dt.datetime.strptime(ts, "%Y-%m-%d %H:%M:%S").timestamp())];
    [strptime] raises [TypeError] when [ts] is not a string. *)
Definition strptime_timestamp (ts : val) : res Z :=
  match ts with
  | VStr s => dt <- strptime s;; timestamp dt
  | _ => Raise TypeError
  end.

Definition parse_unix (ts : val) : res val :=
  if is_none ts then Ret VNone
  else if isinstance_int ts then Ret ts
  else try_except (t <- strptime_timestamp ts;; Ret (VInt t))
                  (fun _ => Ret VNone).

(** [int(time.time())] *)
Definition time_time : M Z :=
  fun w => (Ret (clock (time_reads w)),
            {| announced_ids := announced_ids w; sent := sent w;
               time_reads := S (time_reads w); send_calls := send_calls w |}).

(** [t if isinstance(t, str) else (t or {}).get('name', '?')] *)
Definition team_name (t : val) : res val :=
  if isinstance_str t then Ret t
  else attr_get (py_or t (VDict ∅)) "name" (VStr "?").

Definition make_embed_from_match (m : dict) (live : bool) : M Embed :=
  let t1 := dict_get m "team1" VNone in
  let t2 := dict_get m "team2" VNone in
  team1 <~ lift (team_name t1);;
  team2 <~ lift (team_name t2);;
  let title := format_value team1 +:+ " vs " +:+ format_value team2 in
  let ev := py_or (dict_get m "event" VNone) (dict_get m "match_event" VNone) in
  let desc_parts :=
    if truthy ev then ["**Event:** " +:+ format_value ev] else [] in
  desc_parts <~
    (if truthy (dict_get m "region" VNone)
     then r <~ lift (subscript m "region");;
          m_ret (desc_parts ++ ["**Region:** " +:+ format_value r])%list
     else m_ret desc_parts);;
  let desc :=
    match desc_parts with
    | [] => " "
    | _ => String.concat " · " desc_parts
    end in
  let url := py_or (dict_get m "url" VNone) (dict_get m "match_page" VNone) in
  let desc :=
    if truthy url
    then desc +:+ String "010" "[Match page](" +:+ format_value url +:+ ")"
    else desc in
  let color := if live then 0x5865F2 else 0x2ecc71 in
  flds <~
    (if live && truthy (dict_get m "score" VNone)
     then sc <~ lift (subscript m "score");;
          m_ret [("Score", "`" +:+ format_value sc +:+ "`", false)]
     else
       let tu := dict_get m "time_unix" VNone in
       tu <~ (if negb (truthy tu)
              then lift (parse_unix (dict_get m "unix_timestamp" VNone))
              else m_ret tu);;
       if truthy tu
       then t <~ lift (py_int tu);;
            now <~ time_time;;
            m_ret [("Starts In", fmt_delta (t - now), true)]
       else m_ret []);;
  m_ret {| title := title; description := desc; color := color;
          fields := flds; footer := "Data via vlrggapi (unofficial)" |}.

(** [if live_flag is not None: nm["live"] = live_flag] *)
Definition set_live (live_flag : option bool) (nm : dict) : dict :=
  match live_flag with
  | Some b => <["live" := VBool b]> nm
  | None => nm
  end.

(** The [except] branch of [safe_normalize]. *)
Definition coerce_minimal (live_flag : option bool) (m : dict) : res dict :=
  let nm : dict := ∅ in
  let nm :=
    <["team1" := py_or (py_or (dict_get m "team1" VNone)
                              (dict_get m "team_1" VNone)) (VStr "?")]> nm in
  let nm :=
    <["team2" := py_or (py_or (dict_get m "team2" VNone)
                              (dict_get m "team_2" VNone)) (VStr "?")]> nm in
  let nm :=
    <["event" := py_or (py_or (dict_get m "event" VNone)
                              (dict_get m "match_event" VNone)) (VStr "")]> nm in
  let nm := <["region" := py_or (dict_get m "region" VNone) (VStr "")]> nm in
  let nm :=
    <["url" := py_or (py_or (dict_get m "url" VNone)
                            (dict_get m "match_page" VNone)) (VStr "")]> nm in
  let s1 := dict_get m "score1" VNone in
  let s2 := dict_get m "score2" VNone in
  let nm :=
    if negb (is_none s1) && negb (is_none s2)
    then <["score" := VStr (format_value s1 +:+ "-" +:+ format_value s2)]> nm
    else nm in
  let tu := dict_get m "time_unix" VNone in
  tu <- (if negb (truthy tu)
         then parse_unix (dict_get m "unix_timestamp" VNone)
         else Ret tu);;
  let nm := if truthy tu then <["time_unix" := tu]> nm else nm in
  Ret (set_live live_flag nm).

Definition safe_normalize (live_flag : option bool) (m : val) : res (option dict) :=
  match m with
  | VDict m =>
      try_except
        (nm <- normalize_match m;;
         Ret (Some (set_live live_flag nm)))
        (fun _ =>
           nm <- coerce_minimal live_flag m;;
           Ret (Some nm))
  | _ => Ret None
  end.

(** [v in self._announced_ids]: hashing a list or a dictionary raises. *)
Definition announced_contains (v : val) : M bool :=
  fun w =>
    if hashable v then (Ret (existsb (py_eq v) (announced_ids w)), w)
    else (Raise TypeError, w).

(** [self._announced_ids.add(v)] *)
Definition announced_add (v : val) : M unit :=
  fun w =>
    if hashable v then
      (Ret tt,
       if existsb (py_eq v) (announced_ids w) then w
       else {| announced_ids := announced_ids w ++ [v]; sent := sent w;
               time_reads := time_reads w; send_calls := send_calls w |})
    else (Raise TypeError, w).

(** [await ch.send(embed=emb)]: the post succeeds and shows the embed, or
    raises and shows nothing, as [delivery] tells for this call.  [nm] is
    the record [emb] was built from. *)
Definition channel_send (nm : dict) (emb : Embed) : M unit :=
  fun w =>
    match delivery (send_calls w) with
    | None =>
        (Ret tt,
         {| announced_ids := announced_ids w; sent := sent w ++ [(nm, emb)];
            time_reads := time_reads w; send_calls := S (send_calls w) |})
    | Some e =>
        (Raise e,
         {| announced_ids := announced_ids w; sent := sent w;
            time_reads := time_reads w; send_calls := S (send_calls w) |})
    end.

(** The body of the [for m in raw] loop of [announce_loop]; [continue]
    is the early [m_ret tt]. *)
Definition announce_one (now : Z) (m : val) : M unit :=
  nm <~ lift (safe_normalize None m);;
  match nm with
  | None => m_ret tt
  | Some nm =>
      if negb (truthy (VDict nm))
         || negb (truthy (dict_get nm "time_unix" VNone))
      then m_ret tt
      else
        tu <~ lift (subscript nm "time_unix");;
        t <~ lift (py_int tu);;
        let seconds := t - now in
        if (0 <=? seconds) && (seconds <=? ALERT_LEAD_MINUTES * 60)
        then
          let mid := dict_get nm "match_id" VNone in
          seen <~ (if truthy mid then announced_contains mid else m_ret false);;
          if seen then m_ret tt
          else
            emb <~ make_embed_from_match nm false;;
            _ <~ channel_send nm emb;;
            if truthy mid then announced_add mid else m_ret tt
        else m_ret tt
  end.

Fixpoint for_each (body : val -> M unit) (items : list val) : M unit :=
  match items with
  | [] => m_ret tt
  | m :: rest => _ <~ body m;; for_each body rest
  end.

(** What [for m in raw] iterates over: the elements of a list, the
    characters of a string, the keys of a dictionary (here in the order of
    the finite map; each is a string, which the loop skips); any other
    value is not iterable. *)
Definition py_iter (raw : val) : res (list val) :=
  match raw with
  | VList l => Ret l
  | VStr s => Ret (map (fun c => VStr (String c "")) (list_ascii_of_string s))
  | VDict d => Ret (map (fun kv => VStr (fst kv)) (map_to_list d))
  | _ => Raise TypeError
  end.

(** One run of [announce_loop].  [channel] tells whether
    [ALERT_CHANNEL_ID] and the session are set and the channel was found;
    [response] is the outcome of the request made by [get_upcoming].  The
    [try ... except Exception: pass] keeps the world reached when an
    exception ends the run. *)
Definition announce_loop (channel : bool) (response : res val) (w : world) : world :=
  if negb channel then w
  else
    snd ((segments <~ lift (get_upcoming response);;
          let raw := py_or segments (VList []) in
          now <~ time_time;;
          items <~ lift (py_iter raw);;
          for_each (announce_one now) items) w).

End tracker.
End tracker.

(** ** The command handlers of cogs/tracker.py

    The handlers talk to Discord.  Each call of the library
    ([interaction.response.send_message], [interaction.original_response],
    [channel.send], [msg.edit]) is one request; [reply k] tells whether
    the [k]-th request of the session succeeds or raises, and with what.  A
    request that raises shows nothing.  The messages shown so far are the
    list [posts]; a message is referred to by its position in that list,
    and [response_at] is the position of the interaction's own response.
    [cog] is the state of the cog, whose clock the handlers read when they
    build embeds.  The handlers run alone: no other coroutine adds a message
    between two of their requests. *)

Inductive failure : Type :=
  | NotFound
  | HTTPException
  | Python (e : exn).

Record post : Type := {
  public : bool;
  text : option string;
  embeds : list Embed;
}.

Record session : Type := {
  posts : list post;
  response_at : option nat;
  requests : nat;
  cog : world;
}.

Class Discord : Type := {
  reply : nat -> option failure;
}.

Inductive outcome (A : Type) : Type :=
  | Done (a : A)
  | Failed (f : failure).
Arguments Done {A} a.
Arguments Failed {A} f.

Definition Handler (A : Type) : Type := session -> outcome A * session.

Definition h_ret {A : Type} (a : A) : Handler A := fun s => (Done a, s).

Definition h_bind {A B : Type} (m : Handler A) (k : A -> Handler B) : Handler B :=
  fun s =>
    match m s with
    | (Done a, s') => k a s'
    | (Failed f, s') => (Failed f, s')
    end.

Notation "x <<- m ;; k" := (h_bind m (fun x => k))
  (at level 100, m at next level, right associativity).

(** [try: body except Exception: handler]: what [body] showed before it
    raised stays. *)
Definition h_try {A : Type} (body : Handler A) (handler : failure -> Handler A)
    : Handler A :=
  fun s =>
    match body s with
    | (Done a, s') => (Done a, s')
    | (Failed f, s') => handler f s'
    end.

Definition of_res {A : Type} (r : res A) : Handler A :=
  fun s =>
    (match r with
     | Ret a => Done a
     | Raise e => Failed (Python e)
     end, s).

Definition of_M {A : Type} (m : M A) : Handler A :=
  fun s =>
    let (r, w') := m (cog s) in
    (match r with
     | Ret a => Done a
     | Raise e => Failed (Python e)
     end,
     {| posts := posts s; response_at := response_at s; requests := requests s;
        cog := w' |}).

(** What [msg.edit(content=..., embeds=...)] makes of a message: an
    argument that is [None] is passed as [MISSING] and leaves its part as
    it was. *)
Definition edited (content : option string) (embs : option (list Embed)) (p : post)
    : post :=
  {| public := public p;
     text := match content with
             | Some c => Some c
             | None => text p
             end;
     embeds := default (embeds p) embs |}.

(** [bool(content)] for [content: str | None] *)
Definition text_truthy (content : option string) : bool :=
  match content with
  | Some s => negb (String.eqb s "")
  | None => false
  end.

(** [bool(embeds)] for [embeds: list | None] *)
Definition embeds_truthy (embs : option (list Embed)) : bool :=
  match embs with
  | Some (_ :: _) => true
  | _ => false
  end.

(** [interaction.user.mention if interaction.user else ""] is all the
    handlers read of the user. *)
Record Interaction : Type := {
  user_mention : option string;
}.

(** [s.find(q)]: the lowest index at which [q] occurs in [s], or -1. *)
Fixpoint str_find_from (q s : string) (i : Z) : Z :=
  if String.prefix q s then i
  else match s with
       | EmptyString => -1
       | String _ r => str_find_from q r (i + 1)
       end.

Definition str_find (q s : string) : Z := str_find_from q s 0.

Module handlers.
Import vlr_api tracker.
Section handlers.
Context `{!Runtime} `{!Discord}.

Definition request : Handler unit :=
  fun s =>
    (match reply (requests s) with
     | None => Done tt
     | Some f => Failed f
     end,
     {| posts := posts s; response_at := response_at s;
        requests := S (requests s); cog := cog s |}).

(** [await interaction.response.send_message(content, ephemeral=ephemeral)] *)
Definition send_message (content : string) (ephemeral : bool) : Handler unit :=
  _ <<- request;;
  fun s =>
    (Done tt,
     {| posts := posts s ++ [{| public := negb ephemeral; text := Some content;
                                embeds := [] |}];
        response_at := Some (length (posts s));
        requests := requests s; cog := cog s |}).

(** [await interaction.original_response()] *)
Definition original_response : Handler nat :=
  _ <<- request;;
  fun s =>
    match response_at s with
    | Some i => (Done i, s)
    | None => (Failed NotFound, s)
    end.

(** [await channel.send(content, embeds=embeds)] *)
Definition send (content : option string) (embs : list Embed) : Handler nat :=
  _ <<- request;;
  fun s =>
    (Done (length (posts s)),
     {| posts := posts s ++ [{| public := true; text := content; embeds := embs |}];
        response_at := response_at s; requests := requests s; cog := cog s |}).

(** [await msg.edit(content=..., embeds=..., attachments=[])]; the handlers
    attach nothing, so attachments are left out. *)
Definition edit (msg : nat) (content : option string) (embs : option (list Embed))
    : Handler unit :=
  _ <<- request;;
  fun s =>
    (Done tt,
     {| posts := alter (edited content embs) msg (posts s);
        response_at := response_at s; requests := requests s; cog := cog s |}).

(** [quick_ack].  The two [except] clauses differ only in what they log. *)
Definition quick_ack (interaction : Interaction) (content : string) (ephemeral : bool)
    : Handler (nat * bool) :=
  h_try
    (_ <<- send_message content ephemeral;;
     msg <<- original_response;;
     h_ret (msg, true))
    (fun _ =>
       let mention := default "" (user_mention interaction) in
       msg <<- send (Some (mention +:+ " " +:+ content)) [];;
       h_ret (msg, false)).

Definition safe_edit (msg : nat) (content : option string)
    (embs : option (list Embed)) : Handler unit :=
  h_try
    (edit msg content embs)
    (fun _ =>
       if text_truthy content && embeds_truthy embs
       then _ <<- send content (default [] embs);; h_ret tt
       else if text_truthy content
       then _ <<- send content [];; h_ret tt
       else if embeds_truthy embs
       then _ <<- send None (default [] embs);; h_ret tt
       else h_ret tt).

(** [[n for m in raw if (n := safe_normalize(m, live_flag=...))]] *)
Fixpoint normalize_all (live_flag : option bool) (items : list val) : res (list dict) :=
  match items with
  | [] => Ret []
  | m :: rest =>
      n <- safe_normalize live_flag m;;
      out <- normalize_all live_flag rest;;
      Ret (match n with
           | Some nm => if truthy (VDict nm) then nm :: out else out
           | None => out
           end)
  end.

(** [[make_embed_from_match(m, live=...) for m in norm]] *)
Fixpoint embeds_of (live : bool) (norm : list dict) : M (list Embed) :=
  match norm with
  | [] => m_ret []
  | m :: rest =>
      e <~ make_embed_from_match m live;;
      es <~ embeds_of live rest;;
      m_ret (e :: es)
  end.

(** The [/live] command.  [response] is the outcome of the request made by
    [get_live]. *)
Definition live_matches (interaction : Interaction) (response : res val)
    : Handler unit :=
  ack <<- quick_ack interaction "Checking live matches…" true;;
  let msg := ack.1 in
  segs <<- of_res (get_live response);;
  let raw := py_or segs (VList []) in
  items <<- of_res (py_iter raw);;
  norm <<- of_res (normalize_all (Some true) items);;
  match norm with
  | [] => safe_edit msg (Some "No live matches right now.") (Some [])
  | _ =>
      let content :=
        "Live matches (" +:+ pretty (Z.min (Z.of_nat (length norm)) 10)
        +:+ " shown):" in
      embs <<- of_M (embeds_of true (firstn 10 norm));;
      safe_edit msg (Some content) (Some embs)
  end.

(** [any(((m.get(k) or "").lower().find(q) != -1) for k in keys)] *)
Fixpoint any_key (q : string) (m : dict) (keys : list string) : res bool :=
  match keys with
  | [] => Ret false
  | k :: rest =>
      s <- attr_lower (py_or (dict_get m k VNone) (VStr ""));;
      if negb (str_find q s =? -1) then Ret true else any_key q m rest
  end.

(** The inner function [match_simple] of [find_matches]. *)
Definition match_simple (q : string) (m : dict) : res bool :=
  any_key q m ["team1"; "team2"; "event"; "region"].

(** The second search of [find_matches], made when the first one found
    nothing: [[m for m in all_matches if isinstance(m, dict) and
    match_simple(m)]] with [q = query.lower()]. *)
Definition simple_hits (all_matches : list val) (query : string) : res (list val) :=
  let q := str_lower query in
  comprehension
    (fun m => match m with
              | VDict d => match_simple q d
              | _ => Ret false
              end)
    all_matches.

End handlers.
End handlers.

(** ** A concrete environment for the examples

    A process in the UTC time zone with the default thirty-minute lead
    window, whose clock advances five minutes between readings.
    [format_plain] prints [None], booleans, integers and strings as Python
    does, which is all the examples format; [int_of_decimal] reads an
    optionally signed run of ASCII digits.  The texts of the examples are
    ASCII, on which [str.lower()] is [ascii_lower], and every post to the
    alert channel succeeds. *)

Definition format_plain (v : val) : string :=
  match v with
  | VNone => "None"
  | VBool b => if b then "True" else "False"
  | VInt z => pretty z
  | VStr s => s
  | VFloat _ | VList _ | VDict _ => "..."
  end.

Fixpoint decimal_digits (acc : Z) (s : string) : res Z :=
  match s with
  | EmptyString => Ret acc
  | String c r =>
      if is_digit c then decimal_digits (10 * acc + digit_val c) r
      else Raise ValueError
  end.

Definition int_of_decimal (s : string) : res Z :=
  match s with
  | EmptyString => Raise ValueError
  | String "-" (String c r) => z <- decimal_digits 0 (String c r);; Ret (- z)
  | String "+" (String c r) => decimal_digits 0 (String c r)
  | _ => decimal_digits 0 s
  end.

Definition utc_runtime : Runtime := {|
  format_value := format_plain;
  int_of_str := int_of_decimal;
  local_epoch := Ret;
  clock := fun k => 1700000000 + 300 * Z.of_nat k;
  ALERT_LEAD_MINUTES := 30;
  str_lower := ascii_lower;
  delivery := fun _ => None
|}.

(** The same process when the first post to the alert channel is refused
    and the later ones succeed. *)
Definition flaky_runtime : Runtime := {|
  format_value := format_plain;
  int_of_str := int_of_decimal;
  local_epoch := Ret;
  clock := fun k => 1700000000 + 300 * Z.of_nat k;
  ALERT_LEAD_MINUTES := 30;
  str_lower := ascii_lower;
  delivery := fun k => match k with O => Some DiscordException | S _ => None end
|}.

(** ** Vocabulary of the specification *)

(** The fields the specification lists for a NormalizedMatch, under the
    keys the code gives them ([matchId] is ["match_id"], [timeUnix] is
    ["time_unix"]). *)
Definition canonical_fields : list string :=
  ["team1"; "team2"; "event"; "region"; "url"; "match_id"; "time_unix"; "score"].

(** The fields the permissive decode always fills. *)
Definition minimal_fields : list string :=
  ["team1"; "team2"; "event"; "region"; "url"].

(** Every key either decode can put in its result. *)
Definition normalized_fields : list string :=
  ["team1"; "team2"; "event"; "status"; "time_unix"; "match_id"; "url";
   "score"; "region"; "live"].

Definition has_fields (keys : list string) (nm : dict) : Prop :=
  Forall (fun k => is_Some (nm !! k)) keys.

(** The callers keep a result when it is truthy: a dictionary that is not
    empty. *)
Definition kept (r : option dict) : Prop :=
  exists nm, r = Some nm /\ truthy (VDict nm) = true.

(** A record in canonical shape: no key besides those of a normalized
    match, and both team names are strings. *)
Definition canonical (d : dict) : bool :=
  bool_decide (map_Forall (fun k _ => k ∈ normalized_fields) d)
  && isinstance_str (dict_get d "team1" VNone)
  && isinstance_str (dict_get d "team2" VNone).

(** The record the permissive decode builds from the five values it always
    stores, the timestamp it settled on and the caller's flag, when it
    composes no score. *)
Definition minimal_record `{Runtime} (live_flag : option bool)
    (t1 t2 ev rg url tu : val) : dict :=
  let nm : dict :=
    <["url" := url]> (<["region" := rg]> (<["event" := ev]>
      (<["team2" := t2]> (<["team1" := t1]> ∅)))) in
  tracker.set_live live_flag (if truthy tu then <["time_unix" := tu]> nm else nm).

(** The two spellings of a team's name, by side. *)
Definition team_key (second : bool) : string := if second then "team2" else "team1".
Definition flat_team_key (second : bool) : string := if second then "team_2" else "team_1".

(** ** Example records *)

(** A segment in the flat shape, with an identifier. *)
Definition flat_record : dict :=
  list_to_map
    [("team1", VStr "Sentinels"); ("team2", VStr "Fnatic");
     ("match_event", VStr "Champions Tour"); ("match_id", VStr "123");
     ("score", VStr "2-1"); ("time_unix", VInt 1700001500)].

(** A segment in the nested shape that names only the second team and
    carries the two scores. *)
Definition nested_record : dict :=
  list_to_map
    [("team2", VDict {[ "name" := VStr "Fnatic" ]});
     ("tournament", VDict {[ "name" := VStr "Champions Tour" ]});
     ("match_id", VStr "123");
     ("score1", VInt 13); ("score2", VInt 11);
     ("time_unix", VInt 1700001500)].

(** What the strict decode returns for a fully named nested segment. *)
Definition normalized_record : dict :=
  list_to_map
    [("team1", VStr "Sentinels"); ("team2", VStr "Fnatic");
     ("event", VStr "Champions Tour"); ("status", VStr "");
     ("time_unix", VInt 1700001500); ("match_id", VStr "123");
     ("url", VStr "https://www.vlr.gg/123"); ("score", VList []);
     ("region", VStr "")].


(** A segment with nested names whose tournament is plain text: the strict
    decode rejects it, and the permissive decode keeps the names as they
    are. *)
Definition text_tournament_record : dict :=
  list_to_map
    [("team1", VDict {[ "name" := VStr "Sentinels" ]});
     ("team2", VDict {[ "name" := VStr "Fnatic" ]});
     ("tournament", VStr "Champions Tour")].

(** What the permissive decode returns for [text_tournament_record]. *)
Definition text_tournament_minimal : dict :=
  list_to_map
    [("team1", VDict {[ "name" := VStr "Sentinels" ]});
     ("team2", VDict {[ "name" := VStr "Fnatic" ]});
     ("event", VStr ""); ("region", VStr ""); ("url", VStr "")].

(** What the permissive decode returns for [flat_record]. *)
Definition flat_minimal : dict :=
  list_to_map
    [("team1", VStr "Sentinels"); ("team2", VStr "Fnatic");
     ("event", VStr "Champions Tour"); ("region", VStr ""); ("url", VStr "");
     ("time_unix", VInt 1700001500)].

(** What the strict decode returns for [nested_record]. *)
Definition nested_normalized : dict :=
  list_to_map
    [("team1", VStr ""); ("team2", VStr "Fnatic");
     ("event", VStr "Champions Tour"); ("status", VStr "");
     ("time_unix", VInt 1700001500); ("match_id", VStr "123");
     ("url", VStr "https://www.vlr.gg/123"); ("score", VList []);
     ("region", VStr "")].



(** *** Keyword search *)

Definition searched_fields : list string := ["team1"; "team2"; "event"; "region"].

(** The text of a field: the string stored under the key, and the empty
    string when the key is absent or holds no text. *)
Definition field_text (m : val) (k : string) : string :=
  match m with
  | VDict d =>
      match d !! k with
      | Some (VStr s) => s
      | _ => ""
      end
  | _ => ""
  end.

(** [needle] occurs in [hay] as a substring, up to the case of the letters
    A to Z. *)
Definition occurs_ci (needle hay : string) : Prop :=
  exists pre mid post,
    hay = pre +:+ mid +:+ post /\ ascii_lower mid = ascii_lower needle.

Definition hit (needle : string) (m : val) : Prop :=
  Exists (fun k => occurs_ci needle (field_text m k)) searched_fields.

(** A record as the data model types it for the search: a dictionary whose
    searched fields are strings, or absent or empty values. *)
Definition plain_text (v : val) : bool := isinstance_str v || negb (truthy v).

Definition searchable (m : val) : bool :=
  match m with
  | VDict d => forallb (fun k => plain_text (dict_get d k VNone)) searched_fields
  | _ => false
  end.

(** The lowered needle occurs in the lowered text of a searched field:
    occurrence up to case as [str.lower()] decides it, on any text. *)
Definition found `{Runtime} (needle : string) (m : val) : Prop :=
  Exists (fun k => str_contains (str_lower needle) (str_lower (field_text m k)) = true)
         searched_fields.

(** On ASCII text [str.lower()] folds the letters A to Z and keeps every
    other character. *)
Definition folds_ascii `{Runtime} : Prop :=
  forall s, ascii_text s = true -> str_lower s = ascii_lower s.


(** *** Timestamps in the fixed format *)

Definition digit_char (n : Z) : ascii := ascii_of_N (Z.to_N (n + 48)).

Definition two_digits (n : Z) : string :=
  String (digit_char (n / 10)) (String (digit_char (n mod 10)) "").

Definition four_digits (n : Z) : string :=
  String (digit_char (n / 1000)) (String (digit_char (n / 100 mod 10))
    (two_digits (n mod 100))).

(** [dt] written as YYYY-MM-DD HH:MM:SS. *)
Definition format_datetime (dt : datetime) : string :=
  four_digits (year dt) +:+ "-" +:+ two_digits (month dt) +:+ "-"
  +:+ two_digits (day dt) +:+ " " +:+ two_digits (hour dt) +:+ ":"
  +:+ two_digits (minute dt) +:+ ":" +:+ two_digits (second dt).

(** A date of the calendar with a time of day. *)
Definition civil (dt : datetime) : bool :=
  (1 <=? year dt) && (year dt <=? 9999)
  && (1 <=? month dt) && (month dt <=? 12)
  && (1 <=? day dt) && (day dt <=? days_in_month (year dt) (month dt))
  && (0 <=? hour dt) && (hour dt <=? 23)
  && (0 <=? minute dt) && (minute dt <=? 59)
  && (0 <=? second dt) && (second dt <=? 59).

Definition noon_1_may_2024 : datetime :=
  {| year := 2024; month := 5; day := 1; hour := 12; minute := 0; second := 0 |}.

(** *** Alerts *)

(** The embed was built from a record whose identifier is [id]. *)
Definition announces (id : string) (p : dict * Embed) : bool :=
  py_eq (dict_get p.1 "match_id" VNone) (VStr id).

(** How many announcements of the match [id] the channel holds. *)
Definition announcements_for (id : string) (w : world) : nat :=
  length (List.filter (announces id) (sent w)).

(** The identifier of the record is not in the announced set, or the
    record has none. *)
Definition unannounced (nm : dict) (w : world) : Prop :=
  let mid := dict_get nm "match_id" VNone in
  truthy mid = false
  \/ (hashable mid = true /\ existsb (py_eq mid) (announced_ids w) = false).


(** The world after the announcement of [nm] by [emb]. *)
Definition announced_world (w : world) (nm : dict) (emb : Embed) : world :=
  let mid := dict_get nm "match_id" VNone in
  {| announced_ids :=
       if truthy mid then announced_ids w ++ [mid] else announced_ids w;
     sent := sent w ++ [(nm, emb)];
     time_reads := S (time_reads w);
     send_calls := S (send_calls w) |}.

(** The records a tick iterates over. *)
Definition segments (response : res val) : res (list val) :=
  segs <- vlr_api.get_upcoming response;;
  tracker.py_iter (py_or segs (VList [])).

(** The world after the clock was read once. *)
Definition after_read (w : world) : world :=
  {| announced_ids := announced_ids w; sent := sent w;
     time_reads := S (time_reads w); send_calls := send_calls w |}.

(** The world after an embed was built and its post failed. *)
Definition after_failed_post (w : world) : world :=
  {| announced_ids := announced_ids w; sent := sent w;
     time_reads := S (time_reads w); send_calls := S (send_calls w) |}.

(** Successive runs of [announce_loop], each with the outcome of its
    channel lookup and of its request. *)
Definition run_ticks `{Runtime} (ticks : list (bool * res val)) (w : world) : world :=
  foldl (fun w t => tracker.announce_loop t.1 t.2 w) w ticks.



(** The match [id] is in the announced set. *)
Definition seen (id : string) (w : world) : bool :=
  existsb (py_eq (VStr id)) (announced_ids w).


(** The state of a cog that has just started. *)
Definition empty_world : world :=
  {| announced_ids := []; sent := []; time_reads := 0; send_calls := 0 |}.

(** A response body of the documented shape. *)
Definition upcoming_payload (records : list val) : val :=
  VDict {[ "data" := VDict {[ "segments" := VList records ]} ]}.

(** A response body whose [data] is [null]. *)
Definition null_data_payload : val := VDict {[ "data" := VNone ]}.

(** A flat record whose timestamp is not a number. *)
Definition garbled_record : dict :=
  list_to_map
    [("team1", VStr "Sentinels"); ("team2", VStr "Fnatic");
     ("time_unix", VStr "soon")].

(** *** The decodes, the loop and the handlers in more detail *)

(** The key [k] is absent from [m] or holds a dictionary: what
    [m.get(k, {}).get(...)] needs. *)
Definition nests (m : dict) (k : string) : bool :=
  match m !! k with
  | None | Some (VDict _) => true
  | Some _ => false
  end.

(** The keys of a record of the strict decode. *)
Definition strict_keys : gset string :=
  list_to_set ["team1"; "team2"; "event"; "status"; "time_unix"; "match_id";
               "url"; "score"; "region"].

Definition is_dict (v : val) : bool :=
  match v with
  | VDict _ => true
  | _ => false
  end.

(** The identifiers the loop adds to the announced set for the
    announcements [new]. *)
Definition ids_of (new : list (dict * Embed)) : list val :=
  List.filter truthy (map (fun p => dict_get p.1 "match_id" VNone) new).

(** No element of [l] is equal to an element of [before] or to an earlier
    element of [l]. *)
Fixpoint distinct_from (before : list val) (l : list val) : bool :=
  match l with
  | [] => true
  | x :: r => negb (existsb (py_eq x) before) && distinct_from (before ++ [x]) r
  end.

(** A list that stands for a Python set of identifiers: its elements are
    hashable, truthy and pairwise different. *)
Definition set_like (l : list val) : bool :=
  distinct_from [] l && forallb (fun v => truthy v && hashable v) l.

(** A team entry [make_embed_from_match] can name: a string, a falsy value
    or a dictionary. *)
Definition nameable (t : val) : bool :=
  isinstance_str t || negb (truthy t) || is_dict t.

(** The message [quick_ack] shows as the interaction's response, and the
    one it posts in the channel instead. *)
Definition response_post (content : string) (ephemeral : bool) : post :=
  {| public := negb ephemeral; text := Some content; embeds := [] |}.

Definition channel_post (interaction : Interaction) (content : string) : post :=
  {| public := true;
     text := Some (default "" (user_mention interaction) +:+ " " +:+ content);
     embeds := [] |}.

(** The message [safe_edit] posts when the edit failed. *)
Definition fallback_post (content : option string) (embs : option (list Embed)) : post :=
  {| public := true;
     text := if text_truthy content then content else None;
     embeds := if embeds_truthy embs then default [] embs else [] |}.

(** The embed of [flat_record] as a live match. *)
Definition flat_live_embed : Embed :=
  {| title := "Sentinels vs Fnatic";
     description := "**Event:** Champions Tour";
     color := 0x5865F2;
     fields := [("Score", "`2-1`", false)];
     footer := "Data via vlrggapi (unofficial)" |}.

(** What the fallback decode with the live flag makes of [flat_record],
    and its embed: the score of the segment is not kept, so the embed shows
    the time left. *)
Definition flat_live_minimal : dict := <["live" := VBool true]> flat_minimal.

Definition flat_pending_embed : Embed :=
  {| title := "Sentinels vs Fnatic";
     description := "**Event:** Champions Tour";
     color := 0x5865F2;
     fields := [("Starts In", "25m", true)];
     footer := "Data via vlrggapi (unofficial)" |}.

(** Discord answering every request; rejecting the first request of the
    session only; rejecting every request. *)
Definition steady : Discord := {| reply := fun _ => None |}.

Definition expired_once : Discord :=
  {| reply := fun k => match k with O => Some NotFound | S _ => None end |}.

Definition offline : Discord := {| reply := fun _ => Some HTTPException |}.

(** A session in which nothing has been shown yet. *)
Definition fresh_session : session :=
  {| posts := []; response_at := None; requests := 0; cog := empty_world |}.

Definition caller : Interaction := {| user_mention := Some "<@42>" |}.

(** * Properties *)

Import vlr_api tracker.

(** ** Normalization *)

Section normalizer.
Context `{!Runtime}.

Lemma try_except_returns {A : Type} (body : res A) (handler : exn -> res A) :
  (forall e, returns (handler e)) -> returns (try_except body handler).
Proof.
  intros Hh. destruct body as [a|e]; simpl; [by exists a | apply Hh].
Qed.

Lemma parse_unix_returns (ts : val) : returns (parse_unix ts).
Proof.
  unfold parse_unix.
  destruct (is_none ts); [by eexists|].
  destruct (isinstance_int ts); [by eexists|].
  apply try_except_returns. intros _. by eexists.
Qed.

Lemma coerce_minimal_returns (live_flag : option bool) (m : dict) :
  returns (coerce_minimal live_flag m).
Proof.
  unfold coerce_minimal.
  destruct (parse_unix_returns (dict_get m "unix_timestamp" VNone)) as [p ->].
  destruct (negb _); simpl; by eexists.
Qed.

(** What the permissive decode puts under each key. *)
Lemma coerce_minimal_lookup (live_flag : option bool) (m nm : dict) :
  coerce_minimal live_flag m = Ret nm ->
  nm !! "team1"
    = Some (py_or (py_or (dict_get m "team1" VNone) (dict_get m "team_1" VNone))
                  (VStr "?"))
  /\ nm !! "team2"
    = Some (py_or (py_or (dict_get m "team2" VNone) (dict_get m "team_2" VNone))
                  (VStr "?"))
  /\ nm !! "event"
    = Some (py_or (py_or (dict_get m "event" VNone) (dict_get m "match_event" VNone))
                  (VStr ""))
  /\ nm !! "region" = Some (py_or (dict_get m "region" VNone) (VStr ""))
  /\ nm !! "url"
    = Some (py_or (py_or (dict_get m "url" VNone) (dict_get m "match_page" VNone))
                  (VStr ""))
  /\ nm !! "score"
    = (if negb (is_none (dict_get m "score1" VNone))
          && negb (is_none (dict_get m "score2" VNone))
       then Some (VStr (format_value (dict_get m "score1" VNone) +:+ "-"
                        +:+ format_value (dict_get m "score2" VNone)))
       else None)
  /\ nm !! "match_id" = None
  /\ nm !! "status" = None
  /\ nm !! "live" = VBool <$> live_flag.
Proof.
  unfold coerce_minimal.
  destruct (parse_unix_returns (dict_get m "unix_timestamp" VNone)) as [p ->].
  intros Hnm.
  destruct (negb (truthy (dict_get m "time_unix" VNone)));
    simpl in Hnm; injection Hnm as <-;
    destruct live_flag as [b|]; simpl; repeat case_match; repeat split; reflexivity.
Qed.

Lemma safe_normalize_strict (live_flag : option bool) (m nm : dict) :
  normalize_match m = Ret nm ->
  safe_normalize live_flag (VDict m) = Ret (Some (set_live live_flag nm)).
Proof. intros Hs. unfold safe_normalize. by rewrite Hs. Qed.

Lemma safe_normalize_fallback (live_flag : option bool) (m : dict) (e : exn) :
  normalize_match m = Raise e ->
  exists nm, coerce_minimal live_flag m = Ret nm
             /\ safe_normalize live_flag (VDict m) = Ret (Some nm).
Proof.
  intros Hs. destruct (coerce_minimal_returns live_flag m) as [nm Hnm].
  exists nm. split; [done|]. unfold safe_normalize. rewrite Hs. simpl.
  by rewrite Hnm.
Qed.

(** C9: normalization never raises.  For every input and every live hint
    [safe_normalize] returns; an input that is not a dictionary gives
    [None], and for a dictionary the permissive decode [coerce_minimal]
    returns a record, so the result is a record whether or not the strict
    decode raised. *)
Theorem safe_normalize_never_raises (live_flag : option bool) (m : val) :
  returns (safe_normalize live_flag m)
  /\ match m with
     | VDict d =>
         returns (coerce_minimal live_flag d)
         /\ exists nm, safe_normalize live_flag m = Ret (Some nm)
     | _ => safe_normalize live_flag m = Ret None
     end.
Proof.
  destruct m as [| | | | | |d]; try (split; [by eexists | done]).
  assert (exists nm, safe_normalize live_flag (VDict d) = Ret (Some nm)) as [nm Hnm].
  { destruct (normalize_match d) as [nm|e] eqn:Hs.
    - eexists. by apply safe_normalize_strict.
    - destruct (safe_normalize_fallback live_flag d e Hs) as (nm & _ & Hnm).
      by exists nm. }
  split; [by eexists|]. split; [apply coerce_minimal_returns | by exists nm].
Qed.

(** What the strict decode puts under each key. *)
Lemma normalize_match_lookup (m nm : dict) :
  normalize_match m = Ret nm ->
  exists n1 n2 t,
    attr_get (dict_get m "team1" (VDict ∅)) "name" VNone = Ret n1
    /\ attr_get (dict_get m "team2" (VDict ∅)) "name" VNone = Ret n2
    /\ nm !! "team1" = Some (py_or (py_or n1 (dict_get m "team_1" (VStr ""))) (VStr ""))
    /\ nm !! "team2" = Some (py_or (py_or n2 (dict_get m "team_2" (VStr ""))) (VStr ""))
    /\ nm !! "time_unix" = Some (VInt t)
    /\ nm !! "match_id"
       = Some (py_or (py_or (dict_get m "match_id" VNone) (dict_get m "id" VNone))
                     (VStr ""))
    /\ nm !! "score"
       = Some (py_or (dict_get m "score" VNone) (dict_get m "maps" (VList [])))
    /\ nm !! "live" = None
    /\ has_fields ["event"; "status"; "url"; "region"] nm.
Proof.
  unfold normalize_match. intros Hnm.
  destruct (attr_get (dict_get m "team1" _) _ _) as [n1|] eqn:H1; [|done].
  destruct (attr_get (dict_get m "team2" _) _ _) as [n2|] eqn:H2; [|done].
  simpl in Hnm.
  destruct (attr_get (dict_get m "tournament" _) "name" _) as [ev|]; [|done].
  destruct (attr_get (dict_get m "tournament" _) "region" _) as [rg|]; [|done].
  simpl in Hnm.
  destruct (if truthy _ then _ else _) as [t|]; [|done].
  simpl in Hnm. injection Hnm as <-.
  exists n1, n2, t. repeat split; try done.
  repeat constructor; by eexists.
Qed.

Lemma set_live_lookup_ne (live_flag : option bool) (nm : dict) (k : string) :
  k <> "live" -> set_live live_flag nm !! k = nm !! k.
Proof. intros Hk. destruct live_flag; simpl; [by rewrite lookup_insert_ne|done]. Qed.

Lemma has_fields_set_live (live_flag : option bool) (nm : dict) (keys : list string) :
  has_fields keys nm -> has_fields keys (set_live live_flag nm).
Proof.
  unfold has_fields. intros Hf. eapply Forall_impl; [exact Hf|].
  intros k Hk. simpl in Hk.
  destruct live_flag as [b|]; simpl; [|done].
  destruct (decide ("live" = k)) as [<-|Hne].
  - rewrite lookup_insert_eq. by eexists.
  - by rewrite lookup_insert_ne.
Qed.

Lemma truthy_dict_lookup (nm : dict) (k : string) :
  is_Some (nm !! k) -> truthy (VDict nm) = true.
Proof.
  intros [v Hv]. simpl. rewrite bool_decide_eq_false_2; [done|].
  intros ->. by rewrite lookup_empty in Hv.
Qed.

(** C1, as amended: normalization drops an input that is not a dictionary
    and otherwise returns a record holding at least team1, team2, event,
    region and url.  The record holds the whole canonical field set (and
    status) when the strict decode succeeded; when the permissive decode
    produced it, it has no match_id. *)
Theorem normalized_shape (live_flag : option bool) (m : val) :
  match m with
  | VDict d =>
      exists nm,
        safe_normalize live_flag m = Ret (Some nm)
        /\ has_fields minimal_fields nm
        /\ match normalize_match d with
           | Ret _ => has_fields canonical_fields nm /\ is_Some (nm !! "status")
           | Raise _ => nm !! "match_id" = None
           end
  | _ => safe_normalize live_flag m = Ret None
  end.
Proof.
  destruct m as [| | | | | |d]; try done.
  destruct (normalize_match d) as [nm|e] eqn:Hs.
  - exists (set_live live_flag nm). split; [by apply safe_normalize_strict|].
    destruct (normalize_match_lookup d nm Hs)
      as (n1 & n2 & t & _ & _ & H1 & H2 & Ht & Hid & Hsc & _ & Hrest).
    apply Forall_cons in Hrest as [Hev Hrest].
    apply Forall_cons in Hrest as [Hst Hrest].
    apply Forall_cons in Hrest as [Hurl Hrest].
    apply Forall_cons in Hrest as [Hrg _].
    split; [|split].
    + apply has_fields_set_live. repeat constructor; try done; by eexists.
    + apply has_fields_set_live. repeat constructor; try done; by eexists.
    + by rewrite set_live_lookup_ne.
  - destruct (safe_normalize_fallback live_flag d e Hs) as (nm & Hc & Hnm).
    exists nm. split; [done|].
    destruct (coerce_minimal_lookup live_flag d nm Hc)
      as (H1 & H2 & Hev & Hrg & Hurl & _ & Hid & _).
    split; [|done]. repeat constructor; by eexists.
Qed.

Lemma falsy_name (v n : val) :
  truthy v = false -> attr_get v "name" VNone = Ret n -> n = VNone.
Proof.
  destruct v as [| | | | | |d]; try done. simpl.
  intros Hd%negb_false_iff%bool_decide_eq_true_1 [= <-]. by subst d.
Qed.

Lemma py_or_falsy_default (a d : val) :
  truthy a = false -> py_or a d = d.
Proof. unfold py_or. by intros ->. Qed.

Lemma dict_get_falsy (m : dict) (k : string) (d : val) :
  truthy (dict_get m k VNone) = false -> truthy d = false ->
  truthy (dict_get m k d) = false.
Proof. unfold dict_get. by destruct (m !! k). Qed.

Lemma strict_team_default (m : dict) (k k' : string) (n : val) :
  truthy (dict_get m k VNone) = false ->
  truthy (dict_get m k' VNone) = false ->
  attr_get (dict_get m k (VDict ∅)) "name" VNone = Ret n ->
  py_or (py_or n (dict_get m k' (VStr ""))) (VStr "") = VStr "".
Proof.
  intros Hk Hk' Hn.
  assert (n = VNone) as ->.
  { eapply falsy_name; [|exact Hn]. by apply dict_get_falsy. }
  rewrite (py_or_falsy_default VNone) by done.
  apply py_or_falsy_default. by apply dict_get_falsy.
Qed.

(** C2, as amended: when a team's name is absent or empty under both of its
    keys, the record is still returned and kept by the callers; the name in
    it is ["?"] when the permissive decode produced the record, and the
    empty string when the strict decode did. *)
Theorem missing_team_default (second : bool) (live_flag : option bool) (m : dict) :
  truthy (dict_get m (team_key second) VNone) = false ->
  truthy (dict_get m (flat_team_key second) VNone) = false ->
  exists nm,
    safe_normalize live_flag (VDict m) = Ret (Some nm)
    /\ kept (Some nm)
    /\ nm !! team_key second
       = Some (VStr match normalize_match m with
                    | Ret _ => ""
                    | Raise _ => "?"
                    end).
Proof.
  intros Hk Hk'.
  destruct (normalize_match m) as [nm|e] eqn:Hs.
  - exists (set_live live_flag nm). split; [by apply safe_normalize_strict|].
    destruct (normalize_match_lookup m nm Hs)
      as (n1 & n2 & t & Hn1 & Hn2 & H1 & H2 & _).
    assert (nm !! team_key second = Some (VStr "")) as Hteam.
    { destruct second; simpl in *.
      - by rewrite H2, (strict_team_default m "team2" "team_2" n2).
      - by rewrite H1, (strict_team_default m "team1" "team_1" n1). }
    assert (set_live live_flag nm !! team_key second = Some (VStr "")) as Hlive.
    { rewrite set_live_lookup_ne; [done | by destruct second]. }
    split; [|done]. exists (set_live live_flag nm). split; [done|].
    eapply truthy_dict_lookup. by rewrite Hlive.
  - destruct (safe_normalize_fallback live_flag m e Hs) as (nm & Hc & Hnm).
    exists nm. split; [done|].
    destruct (coerce_minimal_lookup live_flag m nm Hc) as (H1 & H2 & _).
    assert (nm !! team_key second = Some (VStr "?")) as Hteam.
    { destruct second; simpl in *.
      - rewrite H2. by rewrite (py_or_falsy_default (dict_get m "team2" VNone)),
          (py_or_falsy_default (dict_get m "team_2" VNone)).
      - rewrite H1. by rewrite (py_or_falsy_default (dict_get m "team1" VNone)),
          (py_or_falsy_default (dict_get m "team_1" VNone)). }
    split; [|done]. exists nm. split; [done|].
    eapply truthy_dict_lookup. by rewrite Hteam.
Qed.

(** C3, as amended: the score depends on the decode that produced the
    record.  The strict decode passes the score field through, or else the
    list of map results (empty when absent), and does not read score1 and
    score2.  The permissive decode composes "{score1}-{score2}" when both
    are present and not null, and otherwise stores no score. *)
Theorem score_by_tier (live_flag : option bool) (m : dict) :
  exists nm,
    safe_normalize live_flag (VDict m) = Ret (Some nm)
    /\ nm !! "score"
       = match normalize_match m with
         | Ret _ =>
             Some (py_or (dict_get m "score" VNone) (dict_get m "maps" (VList [])))
         | Raise _ =>
             let s1 := dict_get m "score1" VNone in
             let s2 := dict_get m "score2" VNone in
             if negb (is_none s1) && negb (is_none s2)
             then Some (VStr (format_value s1 +:+ "-" +:+ format_value s2))
             else None
         end.
Proof.
  destruct (normalize_match m) as [nm|e] eqn:Hs.
  - exists (set_live live_flag nm). split; [by apply safe_normalize_strict|].
    destruct (normalize_match_lookup m nm Hs)
      as (n1 & n2 & t & _ & _ & _ & _ & _ & _ & Hsc & _).
    by rewrite set_live_lookup_ne.
  - destruct (safe_normalize_fallback live_flag m e Hs) as (nm & Hc & Hnm).
    exists nm. split; [done|].
    by destruct (coerce_minimal_lookup live_flag m nm Hc)
      as (_ & _ & _ & _ & _ & Hsc & _).
Qed.

Lemma py_or_truthy (a d : val) : truthy d = true -> truthy (py_or a d) = true.
Proof. unfold py_or. by destruct (truthy a) eqn:Ha. Qed.

Lemma py_or_stable (a d : val) :
  truthy d = false -> py_or (py_or (py_or a d) VNone) d = py_or a d.
Proof.
  intros Hd. unfold py_or. destruct (truthy a) eqn:Ha.
  - by rewrite !Ha.
  - by rewrite !Hd.
Qed.

Lemma py_or_stable1 (a d : val) :
  truthy d = false -> py_or (py_or a d) d = py_or a d.
Proof.
  intros Hd. unfold py_or. destruct (truthy a) eqn:Ha.
  - by rewrite !Ha.
  - by rewrite !Hd.
Qed.

Lemma py_or_truthy_l (a b : val) : truthy a = true -> py_or a b = a.
Proof. unfold py_or. by intros ->. Qed.

(** The permissive decode of a record that carries no pair of scores. *)
Lemma coerce_minimal_form (live_flag : option bool) (m : dict) :
  negb (is_none (dict_get m "score1" VNone))
  && negb (is_none (dict_get m "score2" VNone)) = false ->
  exists tu,
    coerce_minimal live_flag m
    = Ret (minimal_record live_flag
             (py_or (py_or (dict_get m "team1" VNone) (dict_get m "team_1" VNone))
                    (VStr "?"))
             (py_or (py_or (dict_get m "team2" VNone) (dict_get m "team_2" VNone))
                    (VStr "?"))
             (py_or (py_or (dict_get m "event" VNone) (dict_get m "match_event" VNone))
                    (VStr ""))
             (py_or (dict_get m "region" VNone) (VStr ""))
             (py_or (py_or (dict_get m "url" VNone) (dict_get m "match_page" VNone))
                    (VStr ""))
             tu).
Proof.
  intros Hsc. unfold coerce_minimal, minimal_record. rewrite Hsc.
  destruct (parse_unix_returns (dict_get m "unix_timestamp" VNone)) as [p ->].
  destruct (negb (truthy (dict_get m "time_unix" VNone))); simpl; by eexists.
Qed.

(** The permissive decode returns its own results unchanged. *)
Lemma coerce_minimal_fixed (live_flag : option bool) (t1 t2 ev rg url tu : val) :
  truthy t1 = true -> truthy t2 = true ->
  py_or (py_or ev VNone) (VStr "") = ev ->
  py_or rg (VStr "") = rg ->
  py_or (py_or url VNone) (VStr "") = url ->
  coerce_minimal live_flag (minimal_record live_flag t1 t2 ev rg url tu)
  = Ret (minimal_record live_flag t1 t2 ev rg url tu).
Proof.
  intros H1 H2 Hev Hrg Hurl.
  unfold coerce_minimal.
  set (nm := minimal_record live_flag t1 t2 ev rg url tu).
  assert (dict_get nm "team1" VNone = t1
          /\ dict_get nm "team2" VNone = t2
          /\ dict_get nm "event" VNone = ev
          /\ dict_get nm "region" VNone = rg
          /\ dict_get nm "url" VNone = url
          /\ dict_get nm "time_unix" VNone = (if truthy tu then tu else VNone)
          /\ Forall (fun k => dict_get nm k VNone = VNone)
               ["team_1"; "team_2"; "match_event"; "match_page";
                "score1"; "score2"; "unix_timestamp"])
    as (-> & -> & -> & -> & -> & -> & Habs).
  { subst nm. unfold minimal_record.
    destruct live_flag as [b|], (truthy tu); simpl;
      repeat split; repeat constructor. }
  repeat (apply Forall_cons in Habs as [-> Habs]).
  rewrite (py_or_truthy_l t1), (py_or_truthy_l t1) by (rewrite ?py_or_truthy_l; done).
  rewrite (py_or_truthy_l t2), (py_or_truthy_l t2) by (rewrite ?py_or_truthy_l; done).
  rewrite Hev, Hrg, Hurl. simpl.
  subst nm. unfold minimal_record.
  destruct (truthy tu) eqn:Htu; simpl; rewrite ?Htu; simpl; by rewrite ?Htu.
Qed.

Lemma strict_rejects_flat_name (m : dict) (s : string) :
  m !! "team1" = Some (VStr s) -> exists e, normalize_match m = Raise e.
Proof.
  intros Hm. unfold normalize_match, dict_get at 1. rewrite Hm. by eexists.
Qed.

Lemma canonical_absent (r : dict) (k : string) :
  canonical r = true -> k ∉ normalized_fields -> dict_get r k VNone = VNone.
Proof.
  unfold canonical. intros Hc Hk.
  apply andb_prop in Hc as [Hc _]. apply andb_prop in Hc as [Hc _].
  apply bool_decide_eq_true_1 in Hc.
  unfold dict_get. destruct (r !! k) as [v|] eqn:Hv; [|done].
  destruct Hk. by apply (Hc k v).
Qed.

Ltac not_a_field := apply (bool_decide_unpack _); by vm_compute.

Lemma canonical_names (r : dict) :
  canonical r = true ->
  exists s1 s2, r !! "team1" = Some (VStr s1) /\ r !! "team2" = Some (VStr s2).
Proof.
  unfold canonical, dict_get. intros Hc.
  apply andb_prop in Hc as [Hc H2]. apply andb_prop in Hc as [_ H1].
  destruct (r !! "team1") as [[]|], (r !! "team2") as [[]|]; try done.
  by eexists _, _.
Qed.

(** C4: for a record in canonical shape, normalizing the result of
    normalization returns that result again, under the same live hint. *)
Theorem normalize_idempotent (live_flag : option bool) (r : dict) :
  canonical r = true ->
  exists nm,
    safe_normalize live_flag (VDict r) = Ret (Some nm)
    /\ safe_normalize live_flag (VDict nm) = Ret (Some nm).
Proof.
  intros Hc.
  destruct (canonical_names r Hc) as (s1 & s2 & H1 & H2).
  destruct (strict_rejects_flat_name r s1 H1) as [e He].
  destruct (safe_normalize_fallback live_flag r e He) as (nm & Hnm & Hsafe).
  exists nm. split; [done|].
  destruct (coerce_minimal_form live_flag r) as [tu Hform].
  { rewrite (canonical_absent r "score1" Hc); [done | not_a_field]. }
  rewrite Hform in Hnm. injection Hnm as <-.
  rewrite (canonical_absent r "team_1" Hc), (canonical_absent r "team_2" Hc),
    (canonical_absent r "match_event" Hc), (canonical_absent r "match_page" Hc)
    in * by not_a_field.
  assert (dict_get r "team1" VNone = VStr s1) as -> by (unfold dict_get; by rewrite H1).
  assert (dict_get r "team2" VNone = VStr s2) as -> by (unfold dict_get; by rewrite H2).
  set (a := py_or (py_or (VStr s1) VNone) (VStr "?")) in *.
  set (b := py_or (py_or (VStr s2) VNone) (VStr "?")) in *.
  set (ev := py_or (py_or (dict_get r "event" VNone) VNone) (VStr "")) in *.
  set (rg := py_or (dict_get r "region" VNone) (VStr "")) in *.
  set (url := py_or (py_or (dict_get r "url" VNone) VNone) (VStr "")) in *.
  assert (exists s, a = VStr s) as [sa Hsa].
  { subst a. unfold py_or.
    destruct (truthy (VStr s1)) eqn:E; rewrite ?E; by eexists. }
  assert (coerce_minimal live_flag (minimal_record live_flag a b ev rg url tu)
          = Ret (minimal_record live_flag a b ev rg url tu)) as Hfix.
  { apply coerce_minimal_fixed.
    - by apply py_or_truthy.
    - by apply py_or_truthy.
    - subst ev. by apply py_or_stable.
    - subst rg. by apply py_or_stable1.
    - subst url. by apply py_or_stable. }
  destruct (strict_rejects_flat_name (minimal_record live_flag a b ev rg url tu) sa)
    as [e' He'].
  { rewrite <- Hsa. unfold minimal_record.
    destruct live_flag as [f|], (truthy tu); reflexivity. }
  unfold safe_normalize. rewrite He'. simpl. by rewrite Hfix.
Qed.
End normalizer.

Section normalizer_examples.
#[local] Existing Instance utc_runtime.

(** C1, counterexample: a flat segment carries the identifier "123", and
    the record normalization returns for it has no match_id, so it is
    neither dropped nor complete. *)
Lemma flat_record_loses_match_id :
  flat_record !! "match_id" = Some (VStr "123")
  /\ safe_normalize None (VDict flat_record) = Ret (Some flat_minimal)
  /\ flat_minimal !! "match_id" = None
  /\ ~ has_fields canonical_fields flat_minimal.
Proof.
  split; [reflexivity|]. split; [vm_compute; reflexivity|]. split; [reflexivity|].
  intros Hf. apply (Forall_lookup_1 _ _ 5%nat "match_id") in Hf; [|done].
  by destruct Hf.
Qed.

(** C2, counterexample: a nested segment without team1 under either key is
    normalized to a record whose team1 is the empty string, not "?". *)
Lemma nested_record_empty_team1 :
  nested_record !! "team1" = None
  /\ nested_record !! "team_1" = None
  /\ safe_normalize None (VDict nested_record) = Ret (Some nested_normalized)
  /\ nested_normalized !! "team1" = Some (VStr "").
Proof. repeat split; vm_compute; reflexivity. Qed.

Lemma missing_team_default_witness :
  exists nm,
    safe_normalize None (VDict nested_record) = Ret (Some nm)
    /\ kept (Some nm)
    /\ nm !! team_key false
       = Some (VStr match normalize_match nested_record with
                    | Ret _ => ""
                    | Raise _ => "?"
                    end).
Proof. apply (missing_team_default false None nested_record); reflexivity. Defined.

(** C3, counterexample: a segment with score1 = 13 and score2 = 11 that the
    strict decode accepts gets the empty list as its score, not "13-11";
    and a flat segment with a score field and no score1 and score2 gets no
    score at all. *)
Lemma scores_depend_on_decode :
  (nested_record !! "score1" = Some (VInt 13)
   /\ nested_record !! "score2" = Some (VInt 11)
   /\ safe_normalize None (VDict nested_record) = Ret (Some nested_normalized)
   /\ nested_normalized !! "score" = Some (VList []))
  /\ (flat_record !! "score" = Some (VStr "2-1")
      /\ flat_record !! "score1" = None
      /\ safe_normalize None (VDict flat_record) = Ret (Some flat_minimal)
      /\ flat_minimal !! "score" = None).
Proof. repeat split; vm_compute; reflexivity. Qed.

Lemma normalize_idempotent_witness :
  exists nm,
    safe_normalize None (VDict normalized_record) = Ret (Some nm)
    /\ safe_normalize None (VDict nm) = Ret (Some nm).
Proof. apply (normalize_idempotent None normalized_record). reflexivity. Defined.

(** The record the strict decode returns is not what normalizing it again
    returns: the second pass goes through the permissive decode. *)
Example normalized_record_renormalized :
  safe_normalize None (VDict normalized_record)
  = Ret (Some (<["url" := VStr "https://www.vlr.gg/123"]> flat_minimal)).
Proof. vm_compute. reflexivity. Qed.

(** Without string names the second pass can differ from the first: the
    permissive decode keeps nested names, which the strict decode then
    accepts. *)
Example nested_names_renormalized :
  safe_normalize None (VDict text_tournament_record)
  = Ret (Some text_tournament_minimal)
  /\ safe_normalize None (VDict text_tournament_minimal)
     = Ret (Some (list_to_map
                    [("team1", VStr "Sentinels"); ("team2", VStr "Fnatic");
                     ("event", VStr ""); ("status", VStr "");
                     ("time_unix", VInt 0); ("match_id", VStr "");
                     ("url", VStr ""); ("score", VList []); ("region", VStr "")])).
Proof. split; vm_compute; reflexivity. Qed.

End normalizer_examples.

(** ** The segment list of a response *)

Lemma get_upcoming_absent_data (d : dict) :
  d !! "data" = None -> get_upcoming (Ret (VDict d)) = Ret (VList []).
Proof. intros Hd. unfold get_upcoming. simpl. unfold dict_get. by rewrite Hd. Qed.

Lemma get_upcoming_no_segments (d dd : dict) :
  d !! "data" = Some (VDict dd) ->
  truthy (dict_get dd "segments" VNone) = false ->
  get_upcoming (Ret (VDict d)) = Ret (VList []).
Proof.
  intros Hd Hs. unfold get_upcoming. simpl. unfold dict_get at 1. rewrite Hd. simpl.
  unfold py_or, dict_get in *. destruct (dd !! "segments"); [by rewrite Hs | done].
Qed.

Lemma get_upcoming_not_null (response : res val) (v : val) :
  get_upcoming response = Ret v -> v <> VNone.
Proof.
  unfold get_upcoming. destruct response as [data|]; [|done]. simpl.
  destruct (attr_get data "data" _) as [d|]; [|done]. simpl.
  destruct (attr_get d "segments" _) as [s|]; [|done]. simpl.
  intros [= <-]. unfold py_or. destruct (truthy s) eqn:Hs; [|done].
  by intros ->.
Qed.

Lemma get_live_get_upcoming (response : res val) :
  get_live response = get_upcoming response.
Proof. reflexivity. Qed.

(** C10, where it fails: whenever the body's [data] is [null], the
    extraction raises [AttributeError] in [get_upcoming] and in [get_live]
    instead of returning the empty list. *)
Theorem get_upcoming_null_data (d : dict) :
  d !! "data" = Some VNone ->
  get_upcoming (Ret (VDict d)) = Raise AttributeError
  /\ get_live (Ret (VDict d)) = Raise AttributeError.
Proof.
  intros Hd.
  split; [unfold get_upcoming | unfold get_live];
    cbn [bind attr_get]; unfold dict_get; by rewrite Hd.
Qed.

Lemma get_upcoming_null_data_witness :
  get_upcoming (Ret null_data_payload) = Raise AttributeError
  /\ get_live (Ret null_data_payload) = Raise AttributeError.
Proof. apply get_upcoming_null_data. reflexivity. Defined.

(** ** Keyword search *)

Lemma ascii_lower_app (a b : string) :
  ascii_lower (a +:+ b) = ascii_lower a +:+ ascii_lower b.
Proof. induction a as [|c a IH]; simpl; [done | by rewrite IH]. Qed.

Lemma ascii_lower_split (s a b : string) :
  ascii_lower s = a +:+ b ->
  exists x y, s = x +:+ y /\ ascii_lower x = a /\ ascii_lower y = b.
Proof.
  revert s. induction a as [|c a IH]; intros s Hs.
  - by exists "", s.
  - destruct s as [|d s]; [done|]. simpl in Hs. injection Hs as Hc Hs.
    destruct (IH s Hs) as (x & y & -> & Hx & Hy).
    exists (String d x), y. simpl. by rewrite Hc, Hx.
Qed.

Lemma prefix_spec (needle hay : string) :
  String.prefix needle hay = true <-> exists post, hay = needle +:+ post.
Proof.
  revert hay. induction needle as [|c n IH]; intros [|d h]; simpl.
  - split; [by exists "" | done].
  - split; [by exists (String d h) | done].
  - split; [done | by intros [? ?]].
  - destruct (ascii_dec c d) as [<-|Hne].
    + rewrite IH. split; intros [post Hp]; exists post; [by rewrite Hp | by injection Hp].
    + split; [done|]. intros [post Hp]. by injection Hp as -> _.
Qed.

Lemma str_contains_spec (needle hay : string) :
  str_contains needle hay = true <-> exists pre post, hay = pre +:+ needle +:+ post.
Proof.
  induction hay as [|d h IH]; cbn [str_contains]; rewrite orb_true_iff, prefix_spec.
  - split.
    + intros [[post Hp]|]; [|done]. by exists "", post.
    + intros (pre & post & Hp). left. destruct pre; [by exists post | done].
  - rewrite IH. split.
    + intros [[post Hp]|(pre & post & Hp)].
      * by exists "", post.
      * exists (String d pre), post. simpl. by rewrite Hp.
    + intros (pre & post & Hp). destruct pre as [|c pre].
      * left. by exists post.
      * right. injection Hp as _ Hp. by exists pre, post.
Qed.

Lemma occurs_ci_contains (needle hay : string) :
  occurs_ci needle hay
  <-> str_contains (ascii_lower needle) (ascii_lower hay) = true.
Proof.
  rewrite str_contains_spec. split.
  - intros (pre & mid & post & -> & Hmid).
    exists (ascii_lower pre), (ascii_lower post). by rewrite !ascii_lower_app, Hmid.
  - intros (pre & post & Hp).
    destruct (ascii_lower_split _ _ _ Hp) as (x & y & -> & Hx & Hy).
    destruct (ascii_lower_split _ _ _ Hy) as (mid & z & -> & Hmid & Hz).
    by exists x, mid, z.
Qed.

#[global] Instance occurs_ci_dec (needle hay : string) : Decision (occurs_ci needle hay).
Proof.
  refine (cast_if (decide (str_contains (ascii_lower needle) (ascii_lower hay) = true)));
    by rewrite occurs_ci_contains.
Defined.

#[global] Instance hit_dec (needle : string) (m : val) : Decision (hit needle m).
Proof. unfold hit. apply _. Defined.

#[global] Instance found_dec `{!Runtime} (needle : string) (m : val) :
  Decision (found needle m).
Proof. unfold found. apply _. Defined.

Lemma occurs_ci_empty (hay : string) : occurs_ci "" hay.
Proof. by exists "", "", hay. Qed.

Lemma hit_empty (m : val) : hit "" m.
Proof. apply Exists_cons_hd, occurs_ci_empty. Qed.

Section keyword_search.
Context `{!Runtime}.

Lemma lower_plain_text (d : dict) (k : string) :
  plain_text (dict_get d k VNone) = true ->
  attr_lower (py_or (dict_get d k (VStr "")) (VStr ""))
  = Ret (str_lower (field_text (VDict d) k)).
Proof.
  unfold dict_get, field_text, plain_text, py_or.
  destruct (d !! k) as [v|]; [|done].
  destruct (isinstance_str v) eqn:Hstr.
  - destruct v as [| | | |s| |]; try done. intros _. simpl.
    destruct (String.eqb s "") eqn:Hs; [|done].
    by apply String.eqb_eq in Hs as ->.
  - simpl. intros ->%negb_true_iff. by destruct v.
Qed.

Lemma ok_found (needle : string) (m : val) :
  searchable m = true ->
  _ok (str_lower needle) m = Ret (bool_decide (found needle m)).
Proof.
  destruct m as [| | | | | |d]; try done. cbn [searchable searched_fields forallb].
  rewrite !andb_true_iff. intros (H1 & H2 & Hev & Hrg & _).
  unfold _ok. cbn [attr_get bind any_field].
  rewrite !lower_plain_text by done. cbn [bind].
  rewrite (bool_decide_ext (found needle (VDict d))
    (str_contains (str_lower needle) (str_lower (field_text (VDict d) "event")) = true
     \/ str_contains (str_lower needle) (str_lower (field_text (VDict d) "team1")) = true
     \/ str_contains (str_lower needle) (str_lower (field_text (VDict d) "team2")) = true
     \/ str_contains (str_lower needle) (str_lower (field_text (VDict d) "region"))
        = true)).
  2: { unfold found, searched_fields. rewrite !Exists_cons, Exists_nil. tauto. }
  generalize (field_text (VDict d) "event") (field_text (VDict d) "team1")
    (field_text (VDict d) "team2") (field_text (VDict d) "region").
  intros ev t1 t2 rg.
  destruct (str_contains (str_lower needle) (str_lower ev)) eqn:Cev;
    [by rewrite bool_decide_eq_true_2 by (by left)|].
  destruct (str_contains (str_lower needle) (str_lower t1)) eqn:C1;
    [by rewrite bool_decide_eq_true_2 by (right; by left)|].
  destruct (str_contains (str_lower needle) (str_lower t2)) eqn:C2;
    [by rewrite bool_decide_eq_true_2 by (right; right; by left)|].
  destruct (str_contains (str_lower needle) (str_lower rg)) eqn:Crg;
    [by rewrite bool_decide_eq_true_2 by (right; right; by right)|].
  rewrite bool_decide_eq_false_2; [done|].
  intros [?|[?|[?|?]]]; congruence.
Qed.

Lemma comprehension_found (needle : string) (ms : list val) :
  forallb searchable ms = true ->
  comprehension (_ok (str_lower needle)) ms = Ret (filter (found needle) ms).
Proof.
  induction ms as [|m ms IH]; [done|]. simpl.
  intros [Hm Hms]%andb_prop. rewrite ok_found, IH by done. simpl.
  rewrite filter_cons. destruct (decide (found needle m)) as [Hh|Hh].
  - by rewrite bool_decide_eq_true_2.
  - by rewrite bool_decide_eq_false_2.
Qed.




End keyword_search.

Section keyword_search_examples.
#[local] Existing Instance utc_runtime.

Lemma utc_folds_ascii : folds_ascii.
Proof. by intros s _. Qed.


(** The two records naming Sentinels are both returned, in their places. *)
Example filter_matches_sentinels :
  filter_matches [VDict flat_minimal; VDict nested_normalized; VDict flat_minimal] "SENT"
  = Ret [VDict flat_minimal; VDict flat_minimal].
Proof. vm_compute. reflexivity. Qed.

(** A name that is not text makes the search raise. *)
Example filter_matches_raises :
  filter_matches [VDict {[ "team1" := VInt 5 ]}] "a" = Raise AttributeError.
Proof. vm_compute. reflexivity. Qed.

End keyword_search_examples.

(** ** Timestamp coercion *)

Ltac div_lia := Z.to_euclidean_division_equations; lia.

Lemma digit_char_spec (a : Z) :
  0 <= a <= 9 ->
  is_digit (digit_char a) = true /\ digit_val (digit_char a) = a
  /\ is_space (digit_char a) = false
  /\ forall r, day_field (String (digit_char a) r) = digits12 (String (digit_char a) r).
Proof.
  intros Ha.
  assert (a = 0 \/ a = 1 \/ a = 2 \/ a = 3 \/ a = 4 \/ a = 5 \/ a = 6 \/ a = 7
          \/ a = 8 \/ a = 9) as Hcases by lia.
  destruct Hcases as [->|[->|[->|[->|[->|[->|[->|[->|[->| ->]]]]]]]]];
    repeat split; reflexivity.
Qed.

Lemma string_app_cons (a : ascii) (s r : string) :
  String a s +:+ r = String a (s +:+ r).
Proof. reflexivity. Qed.

Lemma string_app_nil (r : string) : "" +:+ r = r.
Proof. reflexivity. Qed.

Lemma string_app_nil_r (s : string) : s +:+ "" = s.
Proof. induction s as [|a s IH]; [done|]. by rewrite string_app_cons, IH. Qed.

Ltac norm_app := rewrite ?string_app_cons, ?string_app_nil.

Lemma digits12_two (n : Z) (r : string) :
  0 <= n <= 99 -> digits12 (two_digits n +:+ r) = Some (n, r).
Proof.
  intros Hn. unfold two_digits. norm_app.
  destruct (digit_char_spec (n / 10)) as (Ha & Hva & _); [div_lia|].
  destruct (digit_char_spec (n mod 10)) as (Hb & Hvb & _); [div_lia|].
  unfold digits12. rewrite Ha, Hb, Hva, Hvb. do 2 f_equal. div_lia.
Qed.

Lemma day_field_two (n : Z) (r : string) :
  0 <= n <= 99 -> day_field (two_digits n +:+ r) = Some (n, r).
Proof.
  intros Hn. rewrite <- (digits12_two n r Hn). unfold two_digits. norm_app.
  by destruct (digit_char_spec (n / 10)) as (_ & _ & _ & ->); [div_lia|].
Qed.

Lemma spaces1_two (n : Z) (r : string) :
  0 <= n <= 99 ->
  spaces1 (String " " (two_digits n +:+ r)) = Some (two_digits n +:+ r).
Proof.
  intros Hn. unfold two_digits. norm_app. cbn [spaces1 drop_spaces is_space].
  destruct (digit_char_spec (n / 10)) as (_ & _ & -> & _); [div_lia|]. done.
Qed.

Lemma digits4_four (n : Z) (r : string) :
  0 <= n <= 9999 -> digits4 (four_digits n +:+ r) = Some (n, r).
Proof.
  intros Hn. unfold four_digits, two_digits. norm_app.
  destruct (digit_char_spec (n / 1000)) as (Ha & Hva & _); [div_lia|].
  destruct (digit_char_spec (n / 100 mod 10)) as (Hb & Hvb & _); [div_lia|].
  destruct (digit_char_spec (n mod 100 / 10)) as (Hc & Hvc & _); [div_lia|].
  destruct (digit_char_spec (n mod 100 mod 10)) as (Hd & Hvd & _); [div_lia|].
  unfold digits4. rewrite Ha, Hb, Hc, Hd, Hva, Hvb, Hvc, Hvd. cbn [andb].
  do 2 f_equal. div_lia.
Qed.

Lemma days_in_month_bound (y m : Z) : 28 <= days_in_month y m <= 31.
Proof. unfold days_in_month. repeat case_match; lia. Qed.

Lemma match_format_datetime (dt : datetime) :
  civil dt = true -> match_format (format_datetime dt) = Some dt.
Proof.
  destruct dt as [y mo d h mi se]. unfold civil. cbn [year month day hour minute second].
  rewrite !andb_true_iff, !Z.leb_le.
  intros (((((((((((Hy1 & Hy2) & Hm1) & Hm2) & Hd1) & Hd2) & Hh1) & Hh2) & Hi1) & Hi2)
            & Hs1) & Hs2).
  pose proof (days_in_month_bound y mo).
  unfold match_format, format_datetime, mbind, option_bind.
  cbn [year month day hour minute second].
  rewrite digits4_four by lia. norm_app. cbn [expect]. rewrite Ascii.eqb_refl.
  rewrite digits12_two by lia. norm_app. cbn [expect]. rewrite Ascii.eqb_refl.
  unfold in_range at 1. rewrite (proj2 (Z.leb_le 1 mo)), (proj2 (Z.leb_le mo 12)) by lia.
  cbn [andb].
  rewrite day_field_two by lia.
  unfold in_range at 1. rewrite (proj2 (Z.leb_le 1 d)), (proj2 (Z.leb_le d 31)) by lia.
  cbn [andb].
  rewrite spaces1_two by lia.
  rewrite digits12_two by lia. norm_app. cbn [expect]. rewrite Ascii.eqb_refl.
  unfold in_range at 1. rewrite (proj2 (Z.leb_le 0 h)), (proj2 (Z.leb_le h 23)) by lia.
  cbn [andb].
  rewrite digits12_two by lia. norm_app. cbn [expect]. rewrite Ascii.eqb_refl.
  unfold in_range at 1. rewrite (proj2 (Z.leb_le 0 mi)), (proj2 (Z.leb_le mi 59)) by lia.
  cbn [andb].
  rewrite <- (string_app_nil_r (two_digits se)) at 1.
  rewrite digits12_two by lia.
  unfold in_range at 1. rewrite (proj2 (Z.leb_le 0 se)), (proj2 (Z.leb_le se 61)) by lia.
  done.
Qed.

Section coercion.
Context `{!Runtime}.

Lemma civil_valid (dt : datetime) : civil dt = true -> valid_datetime dt = true.
Proof.
  unfold civil, valid_datetime. rewrite !andb_true_iff. tauto.
Qed.

(** Parsing the fixed format gives back the date and time written. *)
Lemma strptime_format_datetime (dt : datetime) :
  civil dt = true -> strptime (format_datetime dt) = Ret dt.
Proof.
  intros Hc. unfold strptime.
  by rewrite (match_format_datetime dt Hc), (civil_valid dt Hc).
Qed.

Lemma strptime_timestamp_not_str (ts : val) :
  isinstance_str ts = false -> strptime_timestamp ts = Raise TypeError.
Proof. by destruct ts. Qed.

(** C8, as amended: timestamp coercion never raises.  An instance of [int]
    (an integer, or a boolean, which Python counts as one) comes back
    unchanged.  A string that writes a calendar date and time as
    YYYY-MM-DD HH:MM:SS gives the epoch seconds of that local time, or
    null when the platform cannot convert it.  Any other shape, and any
    string whose parse or conversion raises, gives null. *)
Theorem parse_unix_coercion :
  (forall ts, returns (parse_unix ts))
  /\ (forall ts, isinstance_int ts = true -> parse_unix ts = Ret ts)
  /\ (forall dt,
        civil dt = true ->
        parse_unix (VStr (format_datetime dt))
        = match local_epoch (civil_seconds dt) with
          | Ret t => Ret (VInt t)
          | Raise _ => Ret VNone
          end)
  /\ (forall ts,
        isinstance_int ts = false -> isinstance_str ts = false ->
        parse_unix ts = Ret VNone)
  /\ (forall ts e,
        isinstance_int ts = false -> strptime_timestamp ts = Raise e ->
        parse_unix ts = Ret VNone).
Proof.
  split; [apply parse_unix_returns|]. split; [|split; [|split]].
  - intros ts Hint. unfold parse_unix. rewrite Hint. by destruct ts.
  - intros dt Hc. unfold parse_unix, strptime_timestamp. cbn [is_none isinstance_int].
    rewrite (strptime_format_datetime dt Hc). cbn [bind]. unfold timestamp.
    by destruct (local_epoch (civil_seconds dt)).
  - intros ts Hint Hstr. unfold parse_unix. rewrite Hint.
    rewrite (strptime_timestamp_not_str ts Hstr). by destruct ts.
  - intros ts e Hint He. unfold parse_unix. rewrite Hint, He. by destruct ts.
Qed.

End coercion.

Section coercion_examples.
#[local] Existing Instance utc_runtime.

(** C8, counterexample: a boolean is neither an integer nor a string in the
    fixed format, yet it comes back unchanged, not as null. *)
Lemma parse_unix_keeps_boolean :
  parse_unix (VBool true) = Ret (VBool true)
  /\ parse_unix (VBool true) <> Ret VNone.
Proof. split; [reflexivity | discriminate]. Qed.

Lemma parse_unix_coercion_witness :
  parse_unix (VStr "2024-05-01 12:00:00") = Ret (VInt 1714564800).
Proof.
  exact (proj1 (proj2 (proj2 parse_unix_coercion)) noon_1_may_2024 eq_refl).
Defined.

(** The parser is as lenient as the library: single digits and a run of
    spaces are read; a date off the calendar is not. *)
Example parse_unix_lenient :
  parse_unix (VStr "2024-5-1   2:3:4") = Ret (VInt 1714528984)
  /\ parse_unix (VStr "2024-02-30 12:00:00") = Ret VNone
  /\ parse_unix (VStr "tomorrow") = Ret VNone
  /\ parse_unix (VList []) = Ret VNone.
Proof. repeat split; vm_compute; reflexivity. Qed.

End coercion_examples.

(** ** The alert scheduler *)

Section scheduler.
Context `{!Runtime}.





(** Building an embed for the scheduler either raises before it touches the
    world or succeeds after one reading of the clock. *)
Lemma make_embed_effect (nm : dict) (w w1 : world) (r : res Embed) :
  truthy (dict_get nm "time_unix" VNone) = true ->
  make_embed_from_match nm false w = (r, w1) ->
  (exists e, r = Raise e /\ w1 = w) \/ (exists emb, r = Ret emb /\ w1 = after_read w).
Proof.
  intros Htu. unfold make_embed_from_match, m_bind, lift.
  destruct (team_name (dict_get nm "team1" VNone)) as [n1|e]; [|intros [= <- <-]; eauto].
  destruct (team_name (dict_get nm "team2" VNone)) as [n2|e]; [|intros [= <- <-]; eauto].
  destruct (truthy (dict_get nm "region" VNone)) eqn:Hrg.
  - unfold subscript. unfold dict_get in Hrg.
    destruct (nm !! "region") as [rg|]; [|done].
    cbn. rewrite Htu. cbn. rewrite Htu.
    destruct (py_int (dict_get nm "time_unix" VNone)) as [t|e]; cbn;
      intros [= <- <-]; eauto.
  - cbn. rewrite Htu. cbn. rewrite Htu.
    destruct (py_int (dict_get nm "time_unix" VNone)) as [t|e]; cbn;
      intros [= <- <-]; eauto.
Qed.

(** One turn of the loop leaves the world as it is, or builds an embed whose
    post fails, or announces a record that is inside the lead window and
    not announced yet. *)
Lemma announce_one_cases (now : Z) (m : val) (w w' : world) (r : res unit) :
  announce_one now m w = (r, w') ->
  w' = w
  \/ (exists e,
        r = Raise e /\ delivery (send_calls w) = Some e /\ w' = after_failed_post w)
  \/ exists nm emb tu t,
       r = Ret tt
       /\ safe_normalize None m = Ret (Some nm)
       /\ nm !! "time_unix" = Some tu /\ py_int tu = Ret t
       /\ 0 <= t - now <= ALERT_LEAD_MINUTES * 60
       /\ unannounced nm w
       /\ delivery (send_calls w) = None
       /\ w' = announced_world w nm emb.
Proof.
  unfold announce_one, m_bind, lift, m_ret.
  destruct (safe_normalize None m) as [[nm|]|e] eqn:Hnm;
    [|intros [= <- <-]; by left..].
  destruct (negb (truthy (VDict nm)) || negb (truthy (dict_get nm "time_unix" VNone)))
    eqn:Hskip; [intros [= <- <-]; by left|].
  apply orb_false_elim in Hskip as [_ Htu%negb_false_iff].
  unfold subscript. destruct (nm !! "time_unix") as [tu|] eqn:Hget;
    [|intros [= <- <-]; by left].
  destruct (py_int tu) as [t|e] eqn:Hint; [|intros [= <- <-]; by left].
  destruct ((0 <=? t - now) && (t - now <=? ALERT_LEAD_MINUTES * 60)) eqn:Hwin;
    [|intros [= <- <-]; by left].
  apply andb_prop in Hwin as [Hlo%Z.leb_le Hhi%Z.leb_le].
  set (mid := dict_get nm "match_id" VNone).
  destruct (truthy mid) eqn:Hmid.
  - unfold announced_contains. destruct (hashable mid) eqn:Hhash;
      [|intros [= <- <-]; by left].
    destruct (existsb (py_eq mid) (announced_ids w)) eqn:Hseen;
      [intros [= <- <-]; by left|].
    destruct (make_embed_from_match nm false w) as [re w1] eqn:Hemb.
    destruct (make_embed_effect nm w w1 re Htu Hemb)
      as [(e & -> & ->)|(emb & -> & ->)]; [intros [= <- <-]; by left|].
    unfold channel_send, announced_add. cbn.
    destruct (delivery (send_calls w)) as [e|] eqn:Hsend.
    + intros [= <- <-]. right. left. by exists e.
    + cbn. rewrite Hhash, Hseen.
      intros [= <- <-]. right. right. exists nm, emb, tu, t.
      repeat split; try done.
      * right. by fold mid.
      * unfold announced_world. fold mid. by rewrite Hmid.
  - destruct (make_embed_from_match nm false w) as [re w1] eqn:Hemb.
    destruct (make_embed_effect nm w w1 re Htu Hemb)
      as [(e & -> & ->)|(emb & -> & ->)]; [intros [= <- <-]; by left|].
    unfold channel_send. cbn.
    destruct (delivery (send_calls w)) as [e|] eqn:Hsend.
    + intros [= <- <-]. right. left. by exists e.
    + intros [= <- <-]. right. right. exists nm, emb, tu, t.
      repeat split; try done.
      * left. by fold mid.
      * unfold announced_world. fold mid. by rewrite Hmid.
Qed.







Lemma for_each_app (now : Z) (pre post : list val) (w wp : world) :
  for_each (announce_one now) pre w = (Ret tt, wp) ->
  for_each (announce_one now) (pre ++ post) w = for_each (announce_one now) post wp.
Proof.
  revert w. induction pre as [|m pre IH]; intros w.
  - by intros [= <-].
  - cbn [for_each app]. unfold m_bind.
    destruct (announce_one now m w) as [[[]|e] w1]; [apply IH | done].
Qed.

(** What a tick does once its records are known. *)
Lemma announce_loop_segments (response : res val) (items : list val) (w : world) :
  segments response = Ret items ->
  announce_loop true response w
  = snd (for_each (announce_one (clock (time_reads w))) items (after_read w)).
Proof.
  unfold segments, announce_loop, m_bind, lift, time_time. cbn [negb].
  destruct (get_upcoming response) as [segs|e]; [|done]. cbn [bind].
  by intros ->.
Qed.







End scheduler.

Section scheduler_examples.
#[local] Existing Instance utc_runtime.



(** Two ticks on the same nested segment: one announcement. *)
Example nested_record_announced_once :
  announcements_for "123"
    (run_ticks [(true, Ret (upcoming_payload [VDict nested_record]));
                (true, Ret (upcoming_payload [VDict nested_record]))]
       empty_world)
  = 1%nat.
Proof. vm_compute. reflexivity. Qed.


(** One second beyond the window, and one second after the start, the loop
    does nothing. *)
Example nested_record_outside_window :
  announce_one 1699999699 (VDict nested_record) empty_world = (Ret tt, empty_world)
  /\ announce_one 1700001501 (VDict nested_record) empty_world
     = (Ret tt, empty_world).
Proof. split; vm_compute; reflexivity. Qed.

(** A record whose timestamp does not convert ends the tick: the records
    after it are not looked at. *)
Example garbled_record_ends_tick :
  sent (announce_loop true
          (Ret (upcoming_payload [VDict garbled_record; VDict nested_record]))
          empty_world)
  = [].
Proof. vm_compute. reflexivity. Qed.

End scheduler_examples.

Section flaky_examples.
#[local] Existing Instance flaky_runtime.

(** A post that is refused leaves no trace besides the calls made: the
    identifier is not marked, and the next tick announces the match. *)
Example refused_post_retried :
  announce_loop true (Ret (upcoming_payload [VDict nested_record])) empty_world
  = after_failed_post (after_read empty_world)
  /\ announcements_for "123"
       (run_ticks [(true, Ret (upcoming_payload [VDict nested_record]));
                   (true, Ret (upcoming_payload [VDict nested_record]))]
          empty_world)
     = 1%nat.
Proof. split; vm_compute; reflexivity. Qed.

End flaky_examples.

(** * More of the code

    Properties read off the code itself: what the two decodes keep, what
    the search and the scheduler do on input the data model does not
    promise, and how the command handlers behave when Discord fails. *)

Import handlers.

(** ** The helpers of the embed *)

Section more_normalizer.
Context `{!Runtime}.

(** [fmt_delta] on a positive number of seconds, given as hours, minutes
    and seconds: minutes alone below one hour, hours and minutes from one
    hour on; seconds are dropped, never rounded up. *)
Theorem fmt_delta_parts (h m r : Z) :
  0 <= h -> 0 <= m < 60 -> 0 <= r < 60 -> 0 < 3600 * h + 60 * m + r ->
  fmt_delta (3600 * h + 60 * m + r)
  = if h =? 0 then pretty m +:+ "m" else pretty h +:+ "h " +:+ pretty m +:+ "m".
Proof.
  intros Hh Hm Hr Hpos. unfold fmt_delta.
  rewrite (proj2 (Z.leb_gt _ _)) by lia.
  assert ((3600 * h + 60 * m + r) / 60 = 60 * h + m) as -> by div_lia.
  assert ((60 * h + m) / 60 = h) as -> by div_lia.
  assert ((60 * h + m) mod 60 = m) as -> by div_lia.
  by destruct (h =? 0).
Qed.

(** [parse_unix] never raises and is idempotent; its result is [None] or an
    instance of [int], and [int()] accepts it whenever it is truthy, so the
    callers' [int(tu)] cannot fail on a parsed value. *)
Theorem parse_unix_idempotent (ts : val) :
  exists v,
    parse_unix ts = Ret v
    /\ parse_unix v = Ret v
    /\ is_none v || isinstance_int v = true
    /\ (truthy v = true -> returns (py_int v)).
Proof.
  unfold parse_unix.
  destruct (is_none ts) eqn:Hn; [by exists VNone|].
  destruct (isinstance_int ts) eqn:Hi.
  - exists ts. rewrite Hn, Hi. split; [done|]. split; [done|].
    split; [by rewrite orb_true_r|].
    intros _. destruct ts; try done; by eexists.
  - destruct (strptime_timestamp ts) as [t|e]; simpl.
    + exists (VInt t). split; [done|]. split; [done|]. split; [done|].
      intros _. by eexists.
    + by exists VNone.
Qed.

(** ** The strict decode *)

(** [normalize_match] returns exactly when team1, team2 and tournament are
    absent or dictionaries and [int()] accepts the time (time_unix, else
    unix_time, else 0); nothing else in the record can make it raise. *)
Theorem normalize_match_returns_iff (m : dict) :
  returns (normalize_match m)
  <-> nests m "team1" = true /\ nests m "team2" = true
      /\ nests m "tournament" = true
      /\ (let tu := py_or (py_or (dict_get m "time_unix" VNone)
                                 (dict_get m "unix_time" VNone)) (VInt 0) in
          returns (py_int tu)).
Proof.
  assert (forall k k', returns (attr_get (dict_get m k (VDict ∅)) k' VNone)
                       <-> nests m k = true) as Hnest.
  { intros k k'. unfold nests, dict_get.
    destruct (m !! k) as [[]|]; simpl; split; try done; try (by intros [? ?]);
      by eexists. }
  unfold normalize_match. cbv zeta.
  set (tu := py_or (py_or (dict_get m "time_unix" VNone) (dict_get m "unix_time" VNone))
                   (VInt 0)).
  assert (returns (if truthy tu then py_int tu else Ret 0) <-> returns (py_int tu)) as Htu.
  { destruct (truthy tu) eqn:Ht; [done|]. split; [|by eexists].
    intros _. subst tu.
    set (inner := py_or (dict_get m "time_unix" VNone) (dict_get m "unix_time" VNone))
      in *.
    unfold py_or in Ht |- *.
    destruct (truthy inner) eqn:Hin; [congruence | by eexists]. }
  rewrite <- (Hnest "team1" "name"), <- (Hnest "team2" "name"),
    <- (Hnest "tournament" "name"), <- Htu.
  pose proof (Hnest "tournament" "name") as Hn1.
  pose proof (Hnest "tournament" "region") as Hn2.
  destruct (attr_get (dict_get m "team1" _) _ _) as [n1|e1];
    [|split; [by intros [? ?] | by intros ([? ?] & _)]].
  destruct (attr_get (dict_get m "team2" _) _ _) as [n2|e2];
    [|split; [by intros [? ?] | by intros (_ & [? ?] & _)]].
  destruct (attr_get (dict_get m "tournament" _) "name" _) as [ev|e3];
    [|split; [by intros [? ?] | by intros (_ & _ & [? ?] & _)]].
  destruct (attr_get (dict_get m "tournament" _) "region" _) as [rg|e4].
  2: { exfalso. assert (nests m "tournament" = true) as Hy by (apply Hn1; by eexists).
       apply Hn2 in Hy as [? ?]. done. }
  cbn [bind].
  destruct (if truthy tu then py_int tu else Ret 0) as [t|e5]; cbn [bind].
  - split; [|by eexists]. intros _. repeat split; by eexists.
  - split; [by intros [? ?] | by intros (_ & _ & _ & [? ?])].
Qed.

Lemma safe_normalize_team1 (live_flag : option bool) (d : dict) :
  exists nm,
    safe_normalize live_flag (VDict d) = Ret (Some nm) /\ is_Some (nm !! "team1").
Proof.
  destruct (normalize_match d) as [nm|e] eqn:Hs.
  - exists (set_live live_flag nm). split; [by apply safe_normalize_strict|].
    destruct (normalize_match_lookup d nm Hs) as (n1 & n2 & t & _ & _ & H1 & _).
    rewrite set_live_lookup_ne by done. by rewrite H1.
  - destruct (safe_normalize_fallback live_flag d e Hs) as (nm & Hc & Hnm).
    exists nm. split; [done|].
    destruct (coerce_minimal_lookup live_flag d nm Hc) as (H1 & _). by rewrite H1.
Qed.

Lemma normalize_match_inv (m nm : dict) :
  normalize_match m = Ret nm ->
  let time_unix :=
    py_or (py_or (dict_get m "time_unix" VNone) (dict_get m "unix_time" VNone))
          (VInt 0) in
  let match_id :=
    py_or (py_or (dict_get m "match_id" VNone) (dict_get m "id" VNone))
          (VStr "") in
  let url :=
    py_or (dict_get m "url" VNone)
          (if truthy match_id
           then VStr ("https://www.vlr.gg/" +:+ format_value match_id)
           else VStr "") in
  exists team1 team2 event status score region t,
    (if truthy time_unix then py_int time_unix else Ret 0) = Ret t
    /\ nm = list_to_map
              [("team1", team1); ("team2", team2); ("event", event);
               ("status", status); ("time_unix", VInt t); ("match_id", match_id);
               ("url", url); ("score", score); ("region", region)].
Proof.
  unfold normalize_match. intros Hnm.
  destruct (attr_get (dict_get m "team1" _) _ _) as [n1|]; [|done].
  destruct (attr_get (dict_get m "team2" _) _ _) as [n2|]; [|done].
  cbn [bind] in Hnm.
  destruct (attr_get (dict_get m "tournament" _) "name" _) as [ev|]; [|done].
  destruct (attr_get (dict_get m "tournament" _) "region" _) as [rg|]; [|done].
  cbn [bind] in Hnm.
  destruct (if truthy _ then _ else _) as [t|] eqn:Ht; [|done].
  cbn [bind] in Hnm. injection Hnm as <-. cbv zeta.
  by eexists _, _, _, _, _, _, t.
Qed.

Lemma normalize_match_dom (m nm : dict) :
  normalize_match m = Ret nm -> dom nm = strict_keys.
Proof.
  intros Hnm. destruct (normalize_match_inv m nm Hnm)
    as (team1 & team2 & event & status & score & region & t & _ & ->).
  rewrite dom_list_to_map_L. reflexivity.
Qed.

(** A record of the strict decode has exactly the nine keys, whatever the
    input holds, and its time_unix is an integer, 0 when the input has no
    truthy time_unix or unix_time. *)
Theorem normalize_match_shape (m nm : dict) :
  normalize_match m = Ret nm ->
  dom nm = strict_keys
  /\ exists t,
       nm !! "time_unix" = Some (VInt t)
       /\ (truthy (dict_get m "time_unix" VNone) = false ->
           truthy (dict_get m "unix_time" VNone) = false -> t = 0).
Proof.
  intros Hnm. split; [by eapply normalize_match_dom|].
  destruct (normalize_match_inv m nm Hnm)
    as (team1 & team2 & event & status & score & region & t & Ht & ->).
  exists t. split; [reflexivity|]. intros H1 H2.
  unfold py_or in Ht. rewrite H1, H2 in Ht. simpl in Ht. congruence.
Qed.

(** The url of a strict record is truthy exactly when the input has a
    truthy url or the record a truthy identifier; without an input url it
    is the vlr.gg address of the identifier. *)
Theorem normalize_match_url (m nm : dict) :
  normalize_match m = Ret nm ->
  exists u mid,
    nm !! "url" = Some u /\ nm !! "match_id" = Some mid
    /\ (truthy u = true
        <-> truthy (dict_get m "url" VNone) = true \/ truthy mid = true)
    /\ (truthy (dict_get m "url" VNone) = false -> truthy mid = true ->
        u = VStr ("https://www.vlr.gg/" +:+ format_value mid)).
Proof.
  intros Hnm. destruct (normalize_match_inv m nm Hnm)
    as (team1 & team2 & event & status & score & region & t & Ht & ->).
  set (mid := py_or (py_or (dict_get m "match_id" VNone) (dict_get m "id" VNone))
                    (VStr "")).
  exists (py_or (dict_get m "url" VNone)
            (if truthy mid then VStr ("https://www.vlr.gg/" +:+ format_value mid)
             else VStr "")), mid.
  split; [reflexivity|]. split; [reflexivity|].
  unfold py_or.
  destruct (truthy (dict_get m "url" VNone)) eqn:Hu.
  - split; [|done]. rewrite Hu. tauto.
  - destruct (truthy mid) eqn:Hm.
    + split; [|done]. split; [tauto|]. intros _. reflexivity.
    + split; [|done]. simpl. split; [done | by intros [?|?]].
Qed.

(** ** Normalization with a live flag *)

(** The live key of a normalized record is the caller's flag and nothing
    else: a live key of the payload is never kept, in either decode. *)
Theorem safe_normalize_live (live_flag : option bool) (d : dict) :
  exists nm,
    safe_normalize live_flag (VDict d) = Ret (Some nm)
    /\ nm !! "live" = VBool <$> live_flag.
Proof.
  destruct (normalize_match d) as [nm|e] eqn:Hs.
  - exists (set_live live_flag nm). split; [by apply safe_normalize_strict|].
    destruct (normalize_match_lookup d nm Hs)
      as (n1 & n2 & t & _ & _ & _ & _ & _ & _ & _ & Hlive & _).
    destruct live_flag as [b|]; simpl; [by rewrite lookup_insert_eq | done].
  - destruct (safe_normalize_fallback live_flag d e Hs) as (nm & Hc & Hnm).
    exists nm. split; [done|].
    by destruct (coerce_minimal_lookup live_flag d nm Hc)
      as (_ & _ & _ & _ & _ & _ & _ & _ & Hlive).
Qed.

Lemma set_live_fields (live_flag : option bool) (nm : dict) :
  map_Forall (fun k _ => k ∈ normalized_fields) nm ->
  map_Forall (fun k _ => k ∈ normalized_fields) (set_live live_flag nm).
Proof.
  intros Hnm. destruct live_flag as [b|]; [|done]. simpl.
  apply map_Forall_insert_2; [|done]. apply (bool_decide_unpack _). by vm_compute.
Qed.

(** Every dictionary is kept by the callers of [safe_normalize] (the
    result is never empty), and its keys are among the ten of a normalized
    match. *)
Theorem safe_normalize_closed (live_flag : option bool) (d : dict) :
  exists nm,
    safe_normalize live_flag (VDict d) = Ret (Some nm)
    /\ kept (Some nm)
    /\ map_Forall (fun k _ => k ∈ normalized_fields) nm.
Proof.
  destruct (safe_normalize_team1 live_flag d) as (nm & Hnm & H1).
  exists nm. split; [done|]. split.
  { exists nm. split; [done|]. by eapply truthy_dict_lookup. }
  unfold safe_normalize in Hnm.
  destruct (normalize_match d) as [nm0|e] eqn:Hs; simpl in Hnm.
  - injection Hnm as <-. apply set_live_fields.
    apply map_Forall_lookup. intros k v Hk.
    apply (elem_of_dom_2 (D := gset string)) in Hk.
    rewrite (normalize_match_dom d nm0 Hs) in Hk.
    unfold strict_keys in Hk. apply elem_of_list_to_set in Hk.
    repeat (apply elem_of_cons in Hk as [->|Hk];
            [apply (bool_decide_unpack _); by vm_compute|]).
    by apply elem_of_nil in Hk.
  - unfold coerce_minimal in Hnm.
    destruct (parse_unix_returns (dict_get d "unix_timestamp" VNone)) as [p Hp].
    rewrite Hp in Hnm.
    assert (forall k : string, k ∈ normalized_fields -> k ∈ normalized_fields) as _ by done.
    destruct (negb (truthy (dict_get d "time_unix" VNone)));
      simpl in Hnm; injection Hnm as <-; apply set_live_fields;
      repeat case_match;
      repeat (apply map_Forall_insert_2;
              [apply (bool_decide_unpack _); by vm_compute|]);
      apply map_Forall_empty.
Qed.

End more_normalizer.

(** ** The search on arbitrary lists *)

Section more_search.
Context `{!Runtime}.

Lemma str_find_from_contains (q s : string) (i : Z) :
  0 <= i -> (str_find_from q s i =? -1) = negb (str_contains q s)
            /\ (-1 <= str_find_from q s i).
Proof.
  revert i. induction s as [|c s IH]; intros i Hi; cbn [str_find_from str_contains].
  - destruct (String.prefix q ""); simpl; [|split; [done | lia]].
    split; [apply Z.eqb_neq|]; lia.
  - destruct (String.prefix q (String c s)); simpl; [|apply IH; lia].
    split; [apply Z.eqb_neq|]; lia.
Qed.

Lemma any_key_field (q : string) (d : dict) (k : string) (rest : list string) :
  any_key q d (k :: rest)
  = (s <- attr_lower (py_or (dict_get d k (VStr "")) (VStr ""));;
     if str_contains q s then Ret true else any_key q d rest).
Proof.
  cbn [any_key].
  assert (py_or (dict_get d k VNone) (VStr "") = py_or (dict_get d k (VStr "")) (VStr ""))
    as -> by (unfold py_or, dict_get; by destruct (d !! k)).
  destruct (attr_lower _) as [s|]; [|done]. cbn [bind]. unfold str_find.
  destruct (str_find_from_contains q s 0) as [-> _]; [lia|].
  by rewrite negb_involutive.
Qed.

(** When [filter_matches] finds nothing, the second search of
    [find_matches] finds nothing either: its [match_simple] tests the same
    four fields, so that fallback never adds a hit. *)
Theorem simple_hits_empty (ms : list val) (query : string) :
  filter_matches ms query = Ret [] -> simple_hits ms query = Ret [].
Proof.
  unfold filter_matches, simple_hits.
  induction ms as [|m ms IH]; [done|]. cbn [comprehension].
  destruct (_ok (str_lower query) m) as [b|] eqn:Hok; [|done]. cbn [bind].
  destruct (comprehension (_ok _) ms) as [out|]; [|done]. cbn [bind].
  destruct b; [done|]. intros [= ->]. rewrite IH by done.
  assert (match m with
          | VDict d => match_simple (str_lower query) d
          | _ => Ret false
          end = Ret false) as ->; [|done].
  destruct m as [| | | | | |d]; try done.
  unfold _ok in Hok. cbn [attr_get bind any_field] in Hok.
  unfold match_simple. rewrite !any_key_field. cbn [any_key].
  destruct (attr_lower (py_or (dict_get d "event" _) _)) as [ev|]; [|done].
  cbn [bind] in Hok. destruct (str_contains _ ev) eqn:Hev; [done|].
  destruct (attr_lower (py_or (dict_get d "team1" _) _)) as [t1|]; [|done].
  cbn [bind] in Hok. destruct (str_contains _ t1) eqn:H1; [done|].
  destruct (attr_lower (py_or (dict_get d "team2" _) _)) as [t2|]; [|done].
  cbn [bind] in Hok. destruct (str_contains _ t2) eqn:H2; [done|].
  destruct (attr_lower (py_or (dict_get d "region" _) _)) as [rg|]; [|done].
  cbn [bind] in Hok. destruct (str_contains _ rg) eqn:Hrg; [done|].
  cbn [bind]. by rewrite H1, H2, Hev, Hrg.
Qed.

Lemma ok_is_dict (needle : string) (m : val) (b : bool) :
  _ok needle m = Ret b -> is_dict m = true.
Proof. by destruct m. Qed.

(** Whenever [filter_matches] returns, every input element is a
    dictionary, and so is every element of the result, which is a sublist
    of the input whose elements pass the test: the branch of the callers
    for a result that holds identifiers is never taken. *)
Theorem filter_matches_returns (ms out : list val) (needle : string) :
  filter_matches ms needle = Ret out ->
  out `sublist_of` ms
  /\ forallb is_dict ms = true
  /\ forallb is_dict out = true
  /\ Forall (fun m => _ok (str_lower needle) m = Ret true) out.
Proof.
  unfold filter_matches. revert out.
  induction ms as [|m ms IH]; intros out; simpl.
  - intros [= <-]. done.
  - destruct (_ok (str_lower needle) m) as [b|] eqn:Hok; [|done]. simpl.
    destruct (comprehension _ ms) as [out'|]; [|done]. simpl.
    intros [= <-]. destruct (IH out' eq_refl) as (Hsub & Hd & Hd' & Hall).
    rewrite (ok_is_dict _ _ _ Hok), Hd. split; [|split; [done|split]].
    + destruct b; [by apply sublist_skip | by apply sublist_cons].
    + destruct b; [|done]. simpl. by rewrite (ok_is_dict _ _ _ Hok).
    + destruct b; [by apply Forall_cons | done].
Qed.

Lemma forallb_filter_searchable (P : val -> Prop) `{!forall m, Decision (P m)}
    (ms : list val) :
  forallb searchable ms = true -> forallb searchable (filter P ms) = true.
Proof.
  induction ms as [|m ms IH]; [done|]. simpl. intros [Hm Hms]%andb_prop.
  rewrite filter_cons. destruct (decide (P m)); simpl; [rewrite Hm|]; by apply IH.
Qed.

(** On searchable records of any text, searching the result of a search
    keeps the records in which both lowered needles are found; the order of
    two searches does not matter, and searching twice for the same needle
    changes nothing. *)
Theorem filter_matches_compose (ms : list val) (a b : string) :
  forallb searchable ms = true ->
  (out <- filter_matches ms a;; filter_matches out b)
  = Ret (filter (fun m => found a m /\ found b m) ms)
  /\ (out <- filter_matches ms a;; filter_matches out b)
     = (out <- filter_matches ms b;; filter_matches out a)
  /\ (out <- filter_matches ms a;; filter_matches out a) = filter_matches ms a.
Proof.
  intros Hms. unfold filter_matches.
  assert (forall x y, (out <- comprehension (_ok (str_lower x)) ms;;
                       comprehension (_ok (str_lower y)) out)
                      = Ret (filter (found y) (filter (found x) ms))) as Hxy.
  { intros x y. rewrite (comprehension_found x ms Hms). cbn [bind].
    apply comprehension_found. by apply forallb_filter_searchable. }
  rewrite !Hxy, !(comprehension_found a ms Hms), !list_filter_filter.
  split; [|split].
  - f_equal. apply list_filter_iff. tauto.
  - f_equal. apply list_filter_iff. tauto.
  - f_equal. apply list_filter_iff. tauto.
Qed.

Lemma string_app_assoc (a b c : string) : (a +:+ b) +:+ c = a +:+ b +:+ c.
Proof.
  induction a as [|x a IH]; [by rewrite !string_app_nil|].
  by rewrite !string_app_cons, IH.
Qed.

Lemma str_contains_trans (a b c : string) :
  str_contains a b = true -> str_contains b c = true -> str_contains a c = true.
Proof.
  rewrite !str_contains_spec.
  intros (p1 & q1 & H1) (p2 & q2 & H2).
  exists (p2 +:+ p1), (q1 +:+ q2). rewrite H2, H1.
  by rewrite !string_app_assoc.
Qed.

(** A longer needle narrows the search.  For two ASCII needles (on which
    [str.lower()] folds the letters A to Z) and searchable records of any
    text: when [a] occurs in [b] up to case, the hits for [b] are a sublist
    of the hits for [a]. *)
Theorem filter_matches_narrows (ms : list val) (a b : string) :
  folds_ascii -> ascii_text a = true -> ascii_text b = true ->
  forallb searchable ms = true ->
  occurs_ci a b ->
  exists outa outb,
    filter_matches ms a = Ret outa /\ filter_matches ms b = Ret outb
    /\ outb `sublist_of` outa.
Proof.
  intros Hlaw Ha Hb Hms Hab. exists (filter (found a) ms), (filter (found b) ms).
  split; [by apply comprehension_found|]. split; [by apply comprehension_found|].
  apply occurs_ci_contains in Hab. rewrite <- (Hlaw a Ha), <- (Hlaw b Hb) in Hab.
  clear Hms. induction ms as [|m ms IH]; [done|].
  rewrite !filter_cons. destruct (decide (found b m)) as [Hfb|Hfb].
  - rewrite decide_True; [by apply sublist_skip|].
    unfold found in *. eapply Exists_impl; [exact Hfb|].
    intros k Hk. by eapply str_contains_trans.
  - destruct (decide (found a m)); [by apply sublist_cons | done].
Qed.

(** ** The response body *)

(** [get_upcoming] returns exactly when the body is a dictionary whose
    data is absent or a dictionary. *)
Theorem get_upcoming_returns_iff (data : val) :
  returns (get_upcoming (Ret data))
  <-> exists d, data = VDict d /\ nests d "data" = true.
Proof.
  unfold get_upcoming, nests. cbn [bind]. split.
  - intros [v Hv]. destruct data as [| | | | | |d]; try done. exists d. split; [done|].
    simpl in Hv. unfold dict_get in Hv. by destruct (d !! "data") as [[]|].
  - intros (d & -> & Hd). simpl. unfold dict_get at 1.
    destruct (d !! "data") as [[]|]; try done; by eexists.
Qed.

(** Truthy segments are returned as they are, by [get_upcoming] and
    [get_live] alike, whether or not they are a list. *)
Theorem get_upcoming_segments (d dd : dict) (s : val) :
  d !! "data" = Some (VDict dd) -> dd !! "segments" = Some s -> truthy s = true ->
  get_upcoming (Ret (VDict d)) = Ret s /\ get_live (Ret (VDict d)) = Ret s.
Proof.
  intros Hd Hs Ht.
  assert (attr_get (VDict d) "data" (VDict ∅) = Ret (VDict dd)) as H1.
  { simpl. unfold dict_get. by rewrite Hd. }
  assert (attr_get (VDict dd) "segments" (VList []) = Ret s) as H2.
  { simpl. unfold dict_get. by rewrite Hs. }
  unfold get_upcoming, get_live. cbn [bind]. rewrite H1. cbn [bind]. rewrite H2.
  cbn [bind]. unfold py_or. by rewrite Ht.
Qed.

End more_search.

(** ** The embed *)

Section more_scheduler.
Context `{!Runtime}.

Lemma parse_unix_int (ts v : val) :
  parse_unix ts = Ret v -> truthy v = true -> returns (py_int v).
Proof.
  unfold parse_unix.
  destruct (is_none ts) eqn:Hn; [by intros [= <-]|].
  destruct (isinstance_int ts) eqn:Hi.
  - intros [= <-] _. destruct ts; try done; by eexists.
  - destruct (strptime_timestamp ts) as [t|e]; simpl; intros [= <-]; [|done].
    intros _. by eexists.
Qed.

Lemma team_name_returns (t : val) : returns (team_name t) <-> nameable t = true.
Proof.
  unfold team_name, nameable, py_or.
  destruct (isinstance_str t) eqn:Hs; [split; [done | by eexists]|].
  destruct (truthy t) eqn:Ht; simpl.
  - destruct t; simpl; split; try done; try (by intros [? ?]); by eexists.
  - split; [done | by eexists].
Qed.

Lemma subscript_truthy (m : dict) (k : string) :
  truthy (dict_get m k VNone) = true -> subscript m k = Ret (dict_get m k VNone).
Proof. unfold dict_get, subscript. by destruct (m !! k). Qed.

(** The one field of an embed.  A live match with a truthy score gets the
    score and the clock is not read; otherwise the time (time_unix, else the
    parsed unix_timestamp) decides: truthy, the embed gets the time left at
    one reading of the clock; falsy, it gets no field and the clock is not
    read. *)
Theorem make_embed_fields (m : dict) (live : bool) (w w' : world) (emb : Embed) :
  make_embed_from_match m live w = (Ret emb, w') ->
  color emb = (if live then 0x5865F2 else 0x2ecc71)
  /\ if live && truthy (dict_get m "score" VNone)
     then w' = w
          /\ fields emb
             = [("Score", "`" +:+ format_value (dict_get m "score" VNone) +:+ "`", false)]
     else exists tu,
         (if truthy (dict_get m "time_unix" VNone)
          then tu = dict_get m "time_unix" VNone
          else parse_unix (dict_get m "unix_timestamp" VNone) = Ret tu)
         /\ if truthy tu
            then exists t,
                py_int tu = Ret t /\ w' = after_read w
                /\ fields emb
                   = [("Starts In", fmt_delta (t - clock (time_reads w)), true)]
            else w' = w /\ fields emb = [].
Proof.
  unfold make_embed_from_match, m_bind, lift, m_ret.
  destruct (team_name (dict_get m "team1" VNone)) as [n1|e]; [|done].
  destruct (team_name (dict_get m "team2" VNone)) as [n2|e]; [|done].
  destruct (truthy (dict_get m "region" VNone)) eqn:Hrg.
  - rewrite (subscript_truthy m "region" Hrg).
    destruct (live && truthy (dict_get m "score" VNone)) eqn:Hsc.
    + apply andb_prop in Hsc as [-> Hsc]. rewrite (subscript_truthy m "score" Hsc).
      intros [= <- <-]. done.
    + destruct (truthy (dict_get m "time_unix" VNone)) eqn:Htu; cbn [negb].
      * rewrite Htu. destruct (py_int (dict_get m "time_unix" VNone)) as [t|e] eqn:Hint;
          [|done]. intros [= <- <-]. split; [done|].
        exists (dict_get m "time_unix" VNone). split; [done|]. rewrite Htu. by exists t.
      * destruct (parse_unix (dict_get m "unix_timestamp" VNone)) as [tu|e] eqn:Hp;
          [|done].
        destruct (truthy tu) eqn:Htu'.
        -- destruct (py_int tu) as [t|e] eqn:Hint; [|done]. intros [= <- <-].
           split; [done|]. exists tu. split; [done|]. rewrite Htu'. by exists t.
        -- intros [= <- <-]. split; [done|]. exists tu. split; [done|]. by rewrite Htu'.
  - destruct (live && truthy (dict_get m "score" VNone)) eqn:Hsc.
    + apply andb_prop in Hsc as [-> Hsc]. rewrite (subscript_truthy m "score" Hsc).
      intros [= <- <-]. done.
    + destruct (truthy (dict_get m "time_unix" VNone)) eqn:Htu; cbn [negb].
      * rewrite Htu. destruct (py_int (dict_get m "time_unix" VNone)) as [t|e] eqn:Hint;
          [|done]. intros [= <- <-]. split; [done|].
        exists (dict_get m "time_unix" VNone). split; [done|]. rewrite Htu. by exists t.
      * destruct (parse_unix (dict_get m "unix_timestamp" VNone)) as [tu|e] eqn:Hp;
          [|done].
        destruct (truthy tu) eqn:Htu'.
        -- destruct (py_int tu) as [t|e] eqn:Hint; [|done]. intros [= <- <-].
           split; [done|]. exists tu. split; [done|]. rewrite Htu'. by exists t.
        -- intros [= <- <-]. split; [done|]. exists tu. split; [done|]. by rewrite Htu'.
Qed.

Lemma make_embed_returns (m : dict) (live : bool) (w : world) :
  returns (make_embed_from_match m live w).1
  <-> nameable (dict_get m "team1" VNone) = true
      /\ nameable (dict_get m "team2" VNone) = true
      /\ (live && truthy (dict_get m "score" VNone) = true
          \/ truthy (dict_get m "time_unix" VNone) = false
          \/ returns (py_int (dict_get m "time_unix" VNone))).
Proof.
  rewrite <- !team_name_returns.
  unfold make_embed_from_match, m_bind, lift, m_ret.
  destruct (team_name (dict_get m "team1" VNone)) as [n1|e];
    [|split; [by intros [? ?] | by intros ([? ?] & _)]].
  destruct (team_name (dict_get m "team2" VNone)) as [n2|e];
    [|split; [by intros [? ?] | by intros (_ & [? ?] & _)]].
  assert (forall parts : list string,
    (if truthy (dict_get m "region" VNone)
     then fun w0 : world =>
            match subscript m "region" with
            | Ret r => (Ret (parts ++ ["**Region:** " +:+ format_value r])%list, w0)
            | Raise e => (Raise e, w0)
            end
     else fun w0 => (Ret parts, w0)) w
    = (Ret (if truthy (dict_get m "region" VNone)
            then (parts ++ ["**Region:** "
                            +:+ format_value (dict_get m "region" VNone)])%list
            else parts), w)) as ->.
  { intros parts. destruct (truthy (dict_get m "region" VNone)) eqn:Hr; [|done].
    by rewrite subscript_truthy. }
  destruct (live && truthy (dict_get m "score" VNone)) eqn:Hsc.
  - apply andb_prop in Hsc as [-> Hsc]. rewrite (subscript_truthy m "score" Hsc).
    split; [|by eexists]. intros _. repeat split; try (by eexists). by left.
  - destruct (truthy (dict_get m "time_unix" VNone)) eqn:Htu; cbn [negb].
    + rewrite Htu. destruct (py_int (dict_get m "time_unix" VNone)) as [t|e] eqn:Hint.
      * split; [|by eexists]. intros _. repeat split; try (by eexists).
        right. right. by eexists.
      * split; [by intros [? ?]|]. by intros (_ & _ & [?|[?|[? ?]]]).
    + split.
      * intros _. repeat split; try (by eexists). right. by left.
      * intros _.
        destruct (parse_unix_returns (dict_get m "unix_timestamp" VNone)) as [tu Hp].
        rewrite Hp. destruct (truthy tu) eqn:Htu'; [|by eexists].
        destruct (parse_unix_int _ _ Hp Htu') as [t ->]. by eexists.
Qed.

(** [make_embed_from_match] returns exactly when both team entries are
    strings, falsy or dictionaries, and the time_unix it has to convert is
    accepted by [int()]; when it raises, it has not read the clock. *)
Theorem make_embed_returns_iff (m : dict) (live : bool) (w : world) :
  (returns (make_embed_from_match m live w).1
   <-> nameable (dict_get m "team1" VNone) = true
       /\ nameable (dict_get m "team2" VNone) = true
       /\ (live && truthy (dict_get m "score" VNone) = true
           \/ truthy (dict_get m "time_unix" VNone) = false
           \/ returns (py_int (dict_get m "time_unix" VNone))))
  /\ forall e w', make_embed_from_match m live w = (Raise e, w') -> w' = w.
Proof.
  split; [apply make_embed_returns|].
  intros e w'. unfold make_embed_from_match, m_bind, lift, m_ret.
  destruct (team_name (dict_get m "team1" VNone)) as [n1|e1]; [|by intros [= _ <-]].
  destruct (team_name (dict_get m "team2" VNone)) as [n2|e2]; [|by intros [= _ <-]].
  destruct (truthy (dict_get m "region" VNone)) eqn:Hrg;
    [rewrite (subscript_truthy m "region" Hrg)|];
    (destruct (live && truthy (dict_get m "score" VNone)) eqn:Hsc;
     [apply andb_prop in Hsc as [-> Hsc]; by rewrite (subscript_truthy m "score" Hsc)|];
     destruct (truthy (dict_get m "time_unix" VNone)) eqn:Htu; cbn [negb];
     [rewrite Htu; by destruct (py_int (dict_get m "time_unix" VNone)); intros [= _ <-]|];
     destruct (parse_unix (dict_get m "unix_timestamp" VNone)) as [tu|e3];
       [|by intros [= _ <-]];
     destruct (truthy tu); [|done];
     by destruct (py_int tu); intros [= _ <-]).
Qed.

Lemma description_parts (ev rg : option string) :
  let parts :=
    ((match ev with Some e => ["**Event:** " +:+ e] | None => [] end)
     ++ (match rg with Some r => ["**Region:** " +:+ r] | None => [] end))%list in
  match parts with
  | [] => " "
  | _ => String.concat " · " parts
  end <> "".
Proof. by destruct ev, rg. Qed.

Lemma string_app_nonempty (a b : string) : a <> "" -> a +:+ b <> "".
Proof. by destruct a. Qed.

(** An embed that was built has a description that is not empty (a single
    space stands in when the record has no event, region or url), the fixed
    footer, and the two names around " vs " as its title. *)
Theorem make_embed_description (m : dict) (live : bool) (w w' : world) (emb : Embed) :
  make_embed_from_match m live w = (Ret emb, w') ->
  description emb <> ""
  /\ footer emb = "Data via vlrggapi (unofficial)"
  /\ exists n1 n2,
       team_name (dict_get m "team1" VNone) = Ret n1
       /\ team_name (dict_get m "team2" VNone) = Ret n2
       /\ title emb = format_value n1 +:+ " vs " +:+ format_value n2.
Proof.
  unfold make_embed_from_match, m_bind, lift, m_ret.
  destruct (team_name (dict_get m "team1" VNone)) as [n1|e]; [|done].
  destruct (team_name (dict_get m "team2" VNone)) as [n2|e]; [|done].
  set (ev := py_or (dict_get m "event" VNone) (dict_get m "match_event" VNone)).
  set (url := py_or (dict_get m "url" VNone) (dict_get m "match_page" VNone)).
  assert (forall parts : list string,
    (if truthy (dict_get m "region" VNone)
     then fun w0 : world =>
            match subscript m "region" with
            | Ret r => (Ret (parts ++ ["**Region:** " +:+ format_value r])%list, w0)
            | Raise e => (Raise e, w0)
            end
     else fun w0 => (Ret parts, w0)) w
    = (Ret (parts
            ++ if truthy (dict_get m "region" VNone)
               then ["**Region:** " +:+ format_value (dict_get m "region" VNone)]
               else [])%list, w)) as ->.
  { intros parts. destruct (truthy (dict_get m "region" VNone)) eqn:Hr.
    - by rewrite subscript_truthy.
    - by rewrite app_nil_r. }
  match goal with
  | |- context [if truthy url then ?d +:+ ?x else ?d] =>
      assert (d <> "") as Hd;
      [|assert ((if truthy url then d +:+ x else d) <> "") as Hdesc
          by (destruct (truthy url); [by apply string_app_nonempty | done]);
        revert Hdesc; generalize (if truthy url then d +:+ x else d)]
  end.
  { pose proof (description_parts
      (if truthy ev then Some (format_value ev) else None)
      (if truthy (dict_get m "region" VNone)
       then Some (format_value (dict_get m "region" VNone)) else None)) as Hp.
    by destruct (truthy ev), (truthy (dict_get m "region" VNone)). }
  intros desc Hdesc.
  destruct (live && truthy (dict_get m "score" VNone)) eqn:Hsc.
  - destruct (subscript m "score"); [|done]. intros [= <- <-]. simpl.
    split; [done|]. split; [done|]. by exists n1, n2.
  - destruct (negb (truthy (dict_get m "time_unix" VNone))).
    + destruct (parse_unix _) as [tu|]; [|done].
      destruct (truthy tu); [destruct (py_int tu); [|done]|];
        intros [= <- <-]; simpl; (split; [done|]; split; [done|]; by exists n1, n2).
    + destruct (truthy (dict_get m "time_unix" VNone));
        [destruct (py_int _); [|done]|];
        intros [= <- <-]; simpl; (split; [done|]; split; [done|]; by exists n1, n2).
Qed.

(** ** The announced set and the channel *)

Lemma announce_one_grows (now : Z) (m : val) (w w' : world) (r : res unit) :
  announce_one now m w = (r, w') ->
  exists new,
    sent w' = (sent w ++ new)%list
    /\ announced_ids w' = (announced_ids w ++ ids_of new)%list
    /\ (time_reads w <= time_reads w')%nat
    /\ (set_like (announced_ids w) = true -> set_like (announced_ids w') = true).
Proof.
  intros Hstep. destruct (announce_one_cases now m w w' r Hstep)
    as [->|[(e & _ & _ & ->)
           |(nm & emb & tu & t & _ & _ & _ & _ & _ & Hfresh & _ & ->)]].
  - exists []. by rewrite !app_nil_r.
  - exists []. rewrite !app_nil_r. cbn. repeat split; try done. lia.
  - exists [(nm, emb)]. unfold announced_world, ids_of. simpl.
    split; [done|].
    destruct (truthy (dict_get nm "match_id" VNone)) eqn:Hmid.
    + split; [done|]. split; [lia|].
      destruct Hfresh as [Hf|[Hhash Hseen]]; [congruence|].
      unfold set_like. intros [Hd Hall]%andb_prop.
      rewrite forallb_app, Hall. simpl. rewrite Hmid, Hhash. simpl.
      rewrite andb_true_r.
      assert (forall before l x,
        distinct_from before (l ++ [x])
        = distinct_from before l && negb (existsb (py_eq x) (before ++ l))) as Hsnoc.
      { clear. intros before l. revert before.
        induction l as [|y l IH]; intros before x; simpl.
        - by rewrite app_nil_r, andb_true_r.
        - rewrite IH, <- app_assoc. simpl. by rewrite andb_assoc. }
      rewrite Hsnoc, Hd. simpl. by rewrite Hseen.
    + rewrite app_nil_r. split; [done|]. split; [lia | done].
Qed.

Lemma ids_of_app (l1 l2 : list (dict * Embed)) :
  ids_of (l1 ++ l2) = (ids_of l1 ++ ids_of l2)%list.
Proof. unfold ids_of. by rewrite map_app, List.filter_app. Qed.

Lemma for_each_grows (now : Z) (items : list val) (w w' : world) (r : res unit) :
  for_each (announce_one now) items w = (r, w') ->
  exists new,
    sent w' = (sent w ++ new)%list
    /\ announced_ids w' = (announced_ids w ++ ids_of new)%list
    /\ (time_reads w <= time_reads w')%nat
    /\ (set_like (announced_ids w) = true -> set_like (announced_ids w') = true).
Proof.
  revert w. induction items as [|m items IH]; intros w; simpl.
  - unfold m_ret. intros [= <- <-]. exists []. by rewrite !app_nil_r.
  - unfold m_bind. destruct (announce_one now m w) as [[[]|e] w1] eqn:Hone.
    + intros Hrest.
      destruct (announce_one_grows now m w w1 _ Hone) as (n1 & Hs1 & Hi1 & Ht1 & Hd1).
      destruct (IH w1 Hrest) as (n2 & Hs2 & Hi2 & Ht2 & Hd2).
      exists (n1 ++ n2)%list.
      split; [by rewrite Hs2, Hs1, app_assoc|].
      split; [by rewrite Hi2, Hi1, ids_of_app, app_assoc|].
      split; [lia | auto].
    + intros [= <- <-]. by eapply announce_one_grows.
Qed.

(** A tick only appends: the channel keeps what it had, the announced list
    grows by the truthy identifiers of the new announcements, in their
    order, and the clock only advances. *)
Theorem announce_loop_grows (channel : bool) (response : res val) (w : world) :
  exists new,
    sent (announce_loop channel response w) = (sent w ++ new)%list
    /\ announced_ids (announce_loop channel response w)
       = (announced_ids w ++ ids_of new)%list
    /\ (time_reads w <= time_reads (announce_loop channel response w))%nat.
Proof.
  unfold announce_loop. destruct channel; simpl;
    [|exists []; by rewrite !app_nil_r].
  unfold m_bind, lift, time_time.
  destruct (get_upcoming response) as [segs|e]; simpl;
    [|exists []; by rewrite !app_nil_r].
  destruct (py_iter (py_or segs (VList []))) as [items|e]; simpl;
    [|exists []; rewrite !app_nil_r; repeat split; lia].
  destruct (for_each _ items _) as [r w'] eqn:Hfor.
  destruct (for_each_grows _ _ _ _ _ Hfor) as (new & Hs & Hi & Ht & _).
  exists new. simpl in *. split; [done|]. split; [done | lia].
Qed.

Lemma announce_loop_set_like (channel : bool) (response : res val) (w : world) :
  set_like (announced_ids w) = true ->
  set_like (announced_ids (announce_loop channel response w)) = true.
Proof.
  unfold announce_loop. destruct channel; simpl; [|done].
  unfold m_bind, lift, time_time.
  destruct (get_upcoming response) as [segs|e]; simpl; [|done].
  destruct (py_iter (py_or segs (VList []))) as [items|e]; simpl; [|done].
  destruct (for_each _ items _) as [r w'] eqn:Hfor.
  destruct (for_each_grows _ _ _ _ _ Hfor) as (new & _ & _ & _ & Hd). exact Hd.
Qed.

(** The announced list stays a set through any run of ticks: hashable,
    truthy identifiers, no two of them equal. *)
Theorem announced_ids_set_like (ticks : list (bool * res val)) (w : world) :
  set_like (announced_ids w) = true ->
  set_like (announced_ids (run_ticks ticks w)) = true.
Proof.
  unfold run_ticks. revert w. induction ticks as [|[c r] ticks IH]; intros w Hw; [done|].
  simpl. apply IH. by apply announce_loop_set_like.
Qed.

(** A tick whose request or whose response body makes [get_upcoming] raise
    changes nothing: the exception is swallowed and the clock is not read. *)
Theorem announce_loop_failed_fetch (channel : bool) (response : res val) (e : exn)
    (w : world) :
  get_upcoming response = Raise e -> announce_loop channel response w = w.
Proof.
  intros He. unfold announce_loop. destruct channel; simpl; [|done].
  unfold m_bind, lift. by rewrite He.
Qed.


(** A record that makes the loop body raise ends the tick, and the records
    after it are not looked at.  The state is the one reached before it;
    when it is the post that raised, the embed was built first, so the
    clock was read and the post counted, while the announced set and the
    channel are still those reached before the record. *)
Theorem announce_loop_aborts (w wp : world) (response : res val) (pre post : list val)
    (m : val) (e : exn) :
  segments response = Ret (pre ++ m :: post)%list ->
  for_each (announce_one (clock (time_reads w))) pre (after_read w) = (Ret tt, wp) ->
  (announce_one (clock (time_reads w)) m wp).1 = Raise e ->
  (announce_loop true response w = wp
   \/ (delivery (send_calls wp) = Some e
       /\ announce_loop true response w = after_failed_post wp))
  /\ announced_ids (announce_loop true response w) = announced_ids wp
  /\ sent (announce_loop true response w) = sent wp.
Proof.
  intros Hseg Hpre Hone.
  assert (announce_loop true response w
          = (announce_one (clock (time_reads w)) m wp).2) as ->.
  { rewrite (announce_loop_segments response _ w Hseg).
    rewrite (for_each_app _ pre (m :: post) _ wp Hpre).
    cbn [for_each]. unfold m_bind.
    destruct (announce_one _ m wp) as [r w1]. simpl in Hone. by subst r. }
  destruct (announce_one _ m wp) as [r w1] eqn:Hstep. simpl in Hone. subst r.
  simpl. destruct (announce_one_cases _ _ _ _ _ Hstep)
    as [->|[(e' & [= <-] & Hsend & ->)|(? & ? & ? & ? & [=] & _)]].
  - split; [by left | done].
  - split; [right; by split | done].
Qed.

(** The loop body raises exactly on a record with a truthy time_unix that
    [int()] rejects, or that is inside the window and has an unhashable
    truthy identifier, or is inside the window, not announced yet, and
    either has a team entry the embed cannot name or has its post fail. *)
Theorem announce_one_raises_iff (now : Z) (m : val) (w : world) :
  (exists e, (announce_one now m w).1 = Raise e)
  <-> exists nm tu,
        safe_normalize None m = Ret (Some nm)
        /\ nm !! "time_unix" = Some tu /\ truthy tu = true
        /\ match py_int tu with
           | Raise _ => True
           | Ret t =>
               0 <= t - now <= ALERT_LEAD_MINUTES * 60
               /\ let mid := dict_get nm "match_id" VNone in
                  if truthy mid && negb (hashable mid) then True
                  else (truthy mid && existsb (py_eq mid) (announced_ids w) = false)
                       /\ (nameable (dict_get nm "team1" VNone)
                           && nameable (dict_get nm "team2" VNone) = false
                           \/ delivery (send_calls w) <> None)
           end.
Proof.
  unfold announce_one, m_bind, lift, m_ret.
  destruct (safe_normalize None m) as [[nm|]|e0] eqn:Hnm.
  2: { split; [by intros [? ?] | by intros (? & ? & ? & _)]. }
  2: { exfalso. destruct m as [| | | | | |d]; try done.
       destruct (safe_normalize_team1 None d) as (? & ? & _). congruence. }
  destruct (truthy (VDict nm)) eqn:Hne; cbn [negb orb].
  2: { split; [by intros [? ?]|]. intros (nm' & tu & [= <-] & Hget & _).
       exfalso. rewrite (truthy_dict_lookup nm "time_unix") in Hne; [done|].
       by rewrite Hget. }
  destruct (truthy (dict_get nm "time_unix" VNone)) eqn:Htu; cbn [negb].
  2: { split; [by intros [? ?]|]. intros (nm' & tu & [= <-] & Hget & Htu' & _).
       unfold dict_get in Htu. rewrite Hget in Htu. congruence. }
  pose proof Htu as Htime.
  unfold subscript. unfold dict_get in Htu.
  destruct (nm !! "time_unix") as [tu|] eqn:Hget; [|done].
  assert (forall P : dict -> val -> Prop,
    (exists nm' tu', Ret (Some nm) = Ret (Some nm') /\ nm' !! "time_unix" = Some tu'
                     /\ truthy tu' = true /\ P nm' tu')
    <-> P nm tu) as ->.
  { intros P. split.
    - intros (nm' & tu' & [= <-] & Hg & _ & HP). congruence.
    - intros HP. by exists nm, tu. }
  destruct (py_int tu) as [t|e1] eqn:Hint; [|split; [done | by eexists]].
  destruct ((0 <=? t - now) && (t - now <=? ALERT_LEAD_MINUTES * 60)) eqn:Hwin.
  2: { split; [by intros [? ?]|]. intros [Hw _]. exfalso.
       apply andb_false_iff in Hwin as [?%Z.leb_gt|?%Z.leb_gt]; lia. }
  apply andb_prop in Hwin as [Hlo%Z.leb_le Hhi%Z.leb_le]. cbv zeta.
  set (mid := dict_get nm "match_id" VNone).
  assert (forall wx, (exists e, (make_embed_from_match nm false wx).1 = Raise e)
                     <-> nameable (dict_get nm "team1" VNone)
                         && nameable (dict_get nm "team2" VNone) = false) as Hemb.
  { intros wx. pose proof (make_embed_returns nm false wx) as Hiff.
    assert (dict_get nm "time_unix" VNone = tu) as Hd
      by (unfold dict_get; by rewrite Hget).
    rewrite Hd in Hiff. simpl in Hiff.
    destruct (make_embed_from_match nm false wx) as [[emb|e2] w2]; simpl in *.
    - assert (returns (Ret emb : res Embed)) as Hr by (by eexists).
      apply Hiff in Hr as (-> & -> & _). split; [by intros [? ?] | done].
    - split; [intros _ | by eexists].
      destruct (nameable (dict_get nm "team1" VNone)) eqn:H1; [|done].
      destruct (nameable (dict_get nm "team2" VNone)) eqn:H2; [|done].
      exfalso. destruct Hiff as [_ Hiff].
      destruct Hiff as [? ?]; [|done].
      split; [done|]. split; [done|]. right. right. by eexists. }
  assert ((truthy mid = true -> hashable mid = true) ->
          ((exists e,
              (let (r, w') := make_embed_from_match nm false w in
               match r with
               | Ret emb =>
                   let (r0, w'0) := channel_send nm emb w' in
                   match r0 with
                   | Ret _ =>
                       if truthy mid then announced_add mid w'0 else (Ret tt, w'0)
                   | Raise e0 => (Raise e0, w'0)
                   end
               | Raise e0 => (Raise e0, w')
               end).1 = Raise e)
           <-> (nameable (dict_get nm "team1" VNone)
                && nameable (dict_get nm "team2" VNone) = false
                \/ delivery (send_calls w) <> None))) as Hpost.
  { intros Hh. destruct (make_embed_from_match nm false w) as [re w2] eqn:Hm.
    destruct (make_embed_effect nm w w2 re Htime Hm) as [(e & -> & ->)|(emb & -> & ->)].
    - split; [intros _ | by eexists]. left. apply (Hemb w). rewrite Hm. by eexists.
    - assert (nameable (dict_get nm "team1" VNone)
              && nameable (dict_get nm "team2" VNone) = true) as Hn.
      { apply not_false_iff_true. intros Hf. apply (Hemb w) in Hf as [e He].
        rewrite Hm in He. done. }
      unfold channel_send. cbn [send_calls after_read].
      destruct (delivery (send_calls w)) as [e|] eqn:Hsend.
      + split; [intros _; by right | by eexists].
      + split; [|intros [?|?]; congruence].
        intros [e He]. exfalso. destruct (truthy mid) eqn:Hmid; [|done].
        unfold announced_add in He. cbn [announced_ids] in He.
        rewrite (Hh eq_refl) in He. done. }
  destruct (truthy mid) eqn:Hmid; cbn [andb].
  - unfold announced_contains. destruct (hashable mid) eqn:Hh; cbn [negb].
    2: { split; [done | by eexists]. }
    destruct (existsb (py_eq mid) (announced_ids w)) eqn:Hseen.
    { split; [by intros [? ?] | by intros (_ & [? _])]. }
    rewrite Hpost by done. split.
    + intros Hc. split; [lia|]. by split.
    + by intros (_ & _ & Hc).
  - rewrite Hpost by done. split.
    + intros Hc. split; [lia|]. by split.
    + by intros (_ & _ & Hc).
Qed.

(** Segments that are not dictionaries are skipped: a tick over such a list
    only reads the clock. *)
Theorem announce_loop_skips_non_records (response : res val) (items : list val)
    (w : world) :
  segments response = Ret items ->
  Forall (fun m => is_dict m = false) items ->
  announce_loop true response w = after_read w.
Proof.
  intros Hseg Hall. rewrite (announce_loop_segments response _ w Hseg).
  generalize (after_read w) as w1. clear Hseg.
  induction Hall as [|m items Hm _ IH]; intros w1; [done|].
  cbn [for_each]. unfold m_bind at 1.
  assert (announce_one (clock (time_reads w)) m w1 = (Ret tt, w1)) as ->
    by (by destruct m).
  apply IH.
Qed.

End more_scheduler.

(** ** The command handlers *)

Section handler_properties.
Context `{!Runtime} `{!Discord}.

(** When [quick_ack] returns, the message it returns is the one shown last,
    the response when the flag is true and the channel post with the
    mention when it is false; in the second case the response may have been
    shown as well, so the user can see the text twice. *)
Theorem quick_ack_shown (i : Interaction) (content : string) (ephemeral : bool)
    (s s' : session) (msg : nat) (b : bool) :
  quick_ack i content ephemeral s = (Done (msg, b), s') ->
  posts s' !! msg
  = Some (if b then response_post content ephemeral else channel_post i content)
  /\ exists new,
       posts s' = (posts s ++ new)%list
       /\ last new
          = Some (if b then response_post content ephemeral else channel_post i content)
       /\ (b = true -> new = [response_post content ephemeral])
       /\ (b = false ->
           new = [channel_post i content]
           \/ new = [response_post content ephemeral; channel_post i content]).
Proof.
  unfold quick_ack, send_message, original_response, send, request, h_try, h_bind,
    h_ret. simpl.
  destruct (reply (requests s)) as [f|]; simpl.
  - destruct (reply (S (requests s))) as [f'|]; simpl; [done|].
    intros [= <- <- <-]. simpl. split.
    + by rewrite lookup_app_r, Nat.sub_diag by lia.
    + exists [channel_post i content]. repeat split; try done. by left.
  - destruct (reply (S (requests s))) as [f|]; simpl.
    + destruct (reply (S (S (requests s)))) as [f'|]; simpl; [done|].
      intros [= <- <- <-]. simpl. split.
      * rewrite length_app. simpl.
        rewrite lookup_app_r by (rewrite length_app; simpl; lia).
        rewrite length_app. simpl. by rewrite Nat.sub_diag.
      * exists [response_post content ephemeral; channel_post i content].
        rewrite <- app_assoc. repeat split; try done. by right.
    + intros [= <- <- <-]. simpl. split.
      * by rewrite lookup_app_r, Nat.sub_diag by lia.
      * exists [response_post content ephemeral]. repeat split; done.
Qed.

(** [quick_ack] raises only when two requests fail, the last one being the
    channel post, and then no channel post was made. *)
Theorem quick_ack_fails_twice (i : Interaction) (content : string) (ephemeral : bool)
    (s s' : session) (f : failure) :
  quick_ack i content ephemeral s = (Failed f, s') ->
  (reply (requests s) <> None /\ reply (S (requests s)) = Some f
   /\ posts s' = posts s)
  \/ (reply (requests s) = None /\ reply (S (requests s)) <> None
      /\ reply (S (S (requests s))) = Some f
      /\ posts s' = (posts s ++ [response_post content ephemeral])%list).
Proof.
  unfold quick_ack, send_message, original_response, send, request, h_try, h_bind,
    h_ret. simpl.
  destruct (reply (requests s)) as [f0|]; simpl.
  - destruct (reply (S (requests s))) as [f'|]; simpl; [|done].
    intros [= <- <-]. by left.
  - destruct (reply (S (requests s))) as [f0|]; simpl; [|done].
    destruct (reply (S (S (requests s)))) as [f'|]; simpl; [|done].
    intros [= <- <-]. by right.
Qed.

(** [safe_edit]: an edit that succeeds changes the message in place; after
    a failed edit, content or embeds that are truthy are posted once in the
    channel, an error of that post is raised, and with neither nothing is
    shown and nothing is raised. *)
Theorem safe_edit_effect (msg : nat) (content : option string)
    (embs : option (list Embed)) (s s' : session) (r : outcome unit) :
  safe_edit msg content embs s = (r, s') ->
  match reply (requests s) with
  | None => r = Done tt /\ posts s' = alter (edited content embs) msg (posts s)
  | Some _ =>
      if text_truthy content || embeds_truthy embs
      then match reply (S (requests s)) with
           | None =>
               r = Done tt
               /\ posts s' = (posts s ++ [fallback_post content embs])%list
           | Some f => r = Failed f /\ posts s' = posts s
           end
      else r = Done tt /\ posts s' = posts s
  end.
Proof.
  unfold safe_edit, edit, send, request, h_try, h_bind, h_ret, fallback_post.
  destruct (reply (requests s)) as [f0|]; simpl; [|by intros [= <- <-]].
  destruct (text_truthy content) eqn:Hc, (embeds_truthy embs) eqn:He; simpl;
    try (by intros [= <- <-]);
    destruct (reply (S (requests s))) as [f|]; simpl; intros [= <- <-]; done.
Qed.

Lemma normalize_all_dicts (live_flag : option bool) (items : list val) :
  exists norm,
    normalize_all live_flag items = Ret norm
    /\ length norm = length (List.filter is_dict items).
Proof.
  induction items as [|m items (norm & Hn & Hl)]; [by exists []|].
  cbn [normalize_all List.filter].
  destruct m as [| | | | | |d];
    [cbn [safe_normalize bind is_dict]; exists norm; by rewrite Hn..|].
  cbn [is_dict]. destruct (safe_normalize_team1 live_flag d) as (nm & Hnm & Hk).
  rewrite Hnm, Hn. cbn [bind]. rewrite (truthy_dict_lookup nm "team1" Hk).
  exists (nm :: norm). simpl. by rewrite Hl.
Qed.

Lemma embeds_of_length (live : bool) (norm : list dict) (w w' : world)
    (embs : list Embed) :
  embeds_of live norm w = (Ret embs, w') -> length embs = length norm.
Proof.
  revert w embs. induction norm as [|m norm IH]; intros w embs; simpl.
  - unfold m_ret. by intros [= <- <-].
  - unfold m_bind, m_ret.
    destruct (make_embed_from_match m live w) as [[e|] w1]; [|done].
    destruct (embeds_of live norm w1) as [[es|] w2] eqn:Hes; [|done].
    intros [= <- <-]. simpl. f_equal. by eapply IH.
Qed.

Lemma alter_last {A : Type} (f : A -> A) (l : list A) (x : A) :
  alter f (length l) (l ++ [x])%list = (l ++ [f x])%list.
Proof.
  replace (length l) with (length l + 0)%nat by lia. by rewrite alter_app_r.
Qed.

(** [/live] with Discord answering: every dictionary of the payload counts
    as a match; the reply is one message, the acknowledgement edited in
    place, with at most ten embeds and the count in its text; when an embed
    cannot be built the exception leaves the handler and the
    acknowledgement stays as it is. *)
Theorem live_matches_working (i : Interaction) (response : res val) (segs : val)
    (items : list val) (s : session) :
  reply (requests s) = None -> reply (S (requests s)) = None ->
  reply (S (S (requests s))) = None ->
  get_live response = Ret segs -> py_iter (py_or segs (VList [])) = Ret items ->
  exists norm,
    normalize_all (Some true) items = Ret norm
    /\ length norm = length (List.filter is_dict items)
    /\ match embeds_of true (firstn 10 norm) (cog s) with
       | (Ret embs, w') =>
           live_matches i response s
           = (Done tt,
              {| posts :=
                   posts s
                   ++ [{| public := false;
                          text := Some
                            match norm with
                            | [] => "No live matches right now."
                            | _ => "Live matches ("
                                   +:+ pretty (Z.min (Z.of_nat (length norm)) 10)
                                   +:+ " shown):"
                            end;
                          embeds := embs |}];
                 response_at := Some (length (posts s));
                 requests := S (S (S (requests s)));
                 cog := w' |})
           /\ length embs = Nat.min (length norm) 10
       | (Raise e, w') =>
           live_matches i response s
           = (Failed (Python e),
              {| posts := posts s ++ [response_post "Checking live matches…" true];
                 response_at := Some (length (posts s));
                 requests := S (S (requests s));
                 cog := w' |})
       end.
Proof.
  intros Hr0 Hr1 Hr2 Hsegs Hitems.
  destruct (normalize_all_dicts (Some true) items) as (norm & Hnorm & Hlen).
  exists norm. split; [done|]. split; [done|].
  unfold live_matches, quick_ack, safe_edit, edit, send_message, original_response,
    send, request, of_res, of_M, h_try, h_bind, h_ret.
  simpl. rewrite Hr0. simpl. rewrite Hr1, Hsegs, Hitems, Hnorm. simpl.
  destruct norm as [|nm norm].
  - simpl. unfold m_ret. rewrite Hr2. simpl. split; [|done].
    by rewrite alter_last.
  - cbn [cog posts requests response_at].
    destruct (embeds_of true (firstn 10 (nm :: norm)) (cog s)) as [[embs|e] w'] eqn:Hemb.
    + cbn [cog posts requests response_at]. rewrite Hr2. split.
      * by rewrite alter_last.
      * rewrite (embeds_of_length _ _ _ _ _ Hemb), length_firstn. lia.
    + done.
Qed.

(** [/live] after the interaction has expired: the acknowledgement falls
    back to the channel, and the result replaces it there, visible to
    everyone although the command asked for an ephemeral reply. *)
Theorem live_matches_expired (i : Interaction) (response : res val) (segs : val)
    (items : list val) (f : failure) (s : session) :
  reply (requests s) = Some f -> reply (S (requests s)) = None ->
  reply (S (S (requests s))) = None ->
  get_live response = Ret segs -> py_iter (py_or segs (VList [])) = Ret items ->
  forall norm embs w',
    normalize_all (Some true) items = Ret norm ->
    embeds_of true (firstn 10 norm) (cog s) = (Ret embs, w') ->
    live_matches i response s
    = (Done tt,
       {| posts :=
            posts s
            ++ [{| public := true;
                   text := Some
                     match norm with
                     | [] => "No live matches right now."
                     | _ => "Live matches ("
                            +:+ pretty (Z.min (Z.of_nat (length norm)) 10)
                            +:+ " shown):"
                     end;
                   embeds := embs |}];
          response_at := response_at s;
          requests := S (S (S (requests s)));
          cog := w' |}).
Proof.
  intros Hr0 Hr1 Hr2 Hsegs Hitems norm embs w' Hnorm Hemb.
  unfold live_matches, quick_ack, safe_edit, edit, send_message, original_response,
    send, request, of_res, of_M, h_try, h_bind, h_ret.
  simpl. rewrite Hr0. simpl. rewrite Hr1, Hsegs, Hitems, Hnorm. simpl.
  destruct norm as [|nm norm].
  - simpl in Hemb. unfold m_ret in Hemb. injection Hemb as <- <-.
    simpl. rewrite Hr2. simpl. by rewrite alter_last.
  - cbn [cog posts requests response_at]. rewrite Hemb.
    cbn [cog posts requests response_at]. rewrite Hr2. by rewrite alter_last.
Qed.

(** [/live] has no handler for a failing fetch: the exception leaves the
    command and the acknowledgement is never edited. *)
Theorem live_matches_fetch_escapes (i : Interaction) (response : res val) (e : exn)
    (s : session) :
  reply (requests s) = None -> reply (S (requests s)) = None ->
  get_live response = Raise e ->
  live_matches i response s
  = (Failed (Python e),
     {| posts := posts s ++ [response_post "Checking live matches…" true];
        response_at := Some (length (posts s));
        requests := S (S (requests s));
        cog := cog s |}).
Proof.
  intros Hr0 Hr1 He.
  unfold live_matches, quick_ack, send_message, original_response, send, request,
    of_res, h_try, h_bind, h_ret.
  simpl. rewrite Hr0. simpl. by rewrite Hr1, He.
Qed.

End handler_properties.

(** ** Examples for the properties above *)

Section more_examples.
#[local] Existing Instance utc_runtime.

Lemma fmt_delta_parts_witness : fmt_delta (3600 * 1 + 60 * 2 + 5) = "1h 2m".
Proof. apply (fmt_delta_parts 1 2 5); lia. Defined.

Lemma normalize_match_shape_witness :
  dom nested_normalized = strict_keys
  /\ exists t,
       nested_normalized !! "time_unix" = Some (VInt t)
       /\ (truthy (dict_get nested_record "time_unix" VNone) = false ->
           truthy (dict_get nested_record "unix_time" VNone) = false -> t = 0).
Proof. apply normalize_match_shape. vm_compute. reflexivity. Defined.

Lemma normalize_match_url_witness :
  exists u mid,
    nested_normalized !! "url" = Some u /\ nested_normalized !! "match_id" = Some mid
    /\ (truthy u = true
        <-> truthy (dict_get nested_record "url" VNone) = true \/ truthy mid = true)
    /\ (truthy (dict_get nested_record "url" VNone) = false -> truthy mid = true ->
        u = VStr ("https://www.vlr.gg/" +:+ format_value mid)).
Proof. apply normalize_match_url. vm_compute. reflexivity. Defined.

Lemma filter_matches_returns_witness :
  [VDict flat_minimal] `sublist_of` [VDict flat_minimal; VDict nested_normalized]
  /\ forallb is_dict [VDict flat_minimal; VDict nested_normalized] = true
  /\ forallb is_dict [VDict flat_minimal] = true
  /\ Forall (fun m => _ok (str_lower "SENT") m = Ret true) [VDict flat_minimal].
Proof. apply (filter_matches_returns _ _ "SENT"). vm_compute. reflexivity. Defined.

Lemma filter_matches_compose_witness :
  (out <- filter_matches [VDict flat_minimal; VDict nested_normalized] "fnatic";;
   filter_matches out "SENT")
  = Ret (filter (fun m => found "fnatic" m /\ found "SENT" m)
           [VDict flat_minimal; VDict nested_normalized])
  /\ (out <- filter_matches [VDict flat_minimal; VDict nested_normalized] "fnatic";;
      filter_matches out "SENT")
     = (out <- filter_matches [VDict flat_minimal; VDict nested_normalized] "SENT";;
        filter_matches out "fnatic")
  /\ (out <- filter_matches [VDict flat_minimal; VDict nested_normalized] "fnatic";;
      filter_matches out "fnatic")
     = filter_matches [VDict flat_minimal; VDict nested_normalized] "fnatic".
Proof. apply filter_matches_compose. vm_compute. reflexivity. Defined.

Lemma filter_matches_narrows_witness :
  exists outa outb,
    filter_matches [VDict flat_minimal; VDict nested_normalized] "sen" = Ret outa
    /\ filter_matches [VDict flat_minimal; VDict nested_normalized] "Sentinels"
       = Ret outb
    /\ outb `sublist_of` outa.
Proof.
  apply filter_matches_narrows.
  - apply utc_folds_ascii.
  - reflexivity.
  - reflexivity.
  - vm_compute. reflexivity.
  - exists "", "Sen", "tinels". split; reflexivity.
Defined.

Lemma simple_hits_empty_witness :
  simple_hits [VDict flat_minimal; VDict nested_normalized] "Paper Rex" = Ret [].
Proof. apply simple_hits_empty. vm_compute. reflexivity. Defined.

Lemma get_upcoming_segments_witness :
  get_upcoming (Ret (upcoming_payload [VDict flat_record]))
  = Ret (VList [VDict flat_record])
  /\ get_live (Ret (upcoming_payload [VDict flat_record]))
     = Ret (VList [VDict flat_record]).
Proof.
  apply (get_upcoming_segments _ {[ "segments" := VList [VDict flat_record] ]});
    reflexivity.
Defined.

Lemma make_embed_fields_witness :
  color flat_live_embed = 0x5865F2
  /\ empty_world = empty_world
  /\ fields flat_live_embed = [("Score", "`2-1`", false)].
Proof.
  assert (make_embed_from_match flat_record true empty_world
          = (Ret flat_live_embed, empty_world)) as Hemb by (vm_compute; reflexivity).
  exact (make_embed_fields _ _ _ _ _ Hemb).
Defined.

Lemma make_embed_description_witness :
  description flat_live_embed <> ""
  /\ footer flat_live_embed = "Data via vlrggapi (unofficial)"
  /\ exists n1 n2,
       team_name (dict_get flat_record "team1" VNone) = Ret n1
       /\ team_name (dict_get flat_record "team2" VNone) = Ret n2
       /\ title flat_live_embed = format_value n1 +:+ " vs " +:+ format_value n2.
Proof.
  apply (make_embed_description flat_record true empty_world empty_world).
  vm_compute. reflexivity.
Defined.

Lemma announced_ids_set_like_witness :
  set_like
    (announced_ids
       (run_ticks [(true, Ret (upcoming_payload [VDict nested_record]));
                   (true, Ret (upcoming_payload [VDict flat_record]))]
          empty_world))
  = true.
Proof. apply announced_ids_set_like. reflexivity. Defined.

Lemma announce_loop_failed_fetch_witness :
  announce_loop true (Ret null_data_payload) empty_world = empty_world.
Proof. apply (announce_loop_failed_fetch _ _ AttributeError). reflexivity. Defined.


Lemma announce_loop_aborts_witness :
  (announce_loop true
     (Ret (upcoming_payload [VDict garbled_record; VDict nested_record])) empty_world
   = after_read empty_world
   \/ (delivery (send_calls (after_read empty_world)) = Some ValueError
       /\ announce_loop true
            (Ret (upcoming_payload [VDict garbled_record; VDict nested_record]))
            empty_world
          = after_failed_post (after_read empty_world)))
  /\ announced_ids
       (announce_loop true
          (Ret (upcoming_payload [VDict garbled_record; VDict nested_record]))
          empty_world)
     = announced_ids (after_read empty_world)
  /\ sent
       (announce_loop true
          (Ret (upcoming_payload [VDict garbled_record; VDict nested_record]))
          empty_world)
     = sent (after_read empty_world).
Proof.
  apply (announce_loop_aborts _ _ _ [] [VDict nested_record] (VDict garbled_record)
           ValueError).
  - vm_compute. reflexivity.
  - reflexivity.
  - vm_compute. reflexivity.
Defined.

Lemma announce_loop_skips_non_records_witness :
  announce_loop true (Ret (upcoming_payload [VStr "TBD"; VNone])) empty_world
  = after_read empty_world.
Proof.
  apply (announce_loop_skips_non_records _ [VStr "TBD"; VNone]).
  - vm_compute. reflexivity.
  - repeat constructor.
Defined.

End more_examples.

Section expired_examples.
#[local] Existing Instance utc_runtime.
#[local] Existing Instance expired_once.

Lemma quick_ack_shown_witness :
  [channel_post caller "Searching"] !! 0%nat = Some (channel_post caller "Searching")
  /\ exists new,
       [channel_post caller "Searching"] = ([] ++ new)%list
       /\ last new = Some (channel_post caller "Searching")
       /\ (false = true -> new = [response_post "Searching" true])
       /\ (false = false ->
           new = [channel_post caller "Searching"]
           \/ new = [response_post "Searching" true; channel_post caller "Searching"]).
Proof.
  apply (quick_ack_shown caller "Searching" true fresh_session
           {| posts := [channel_post caller "Searching"]; response_at := None;
              requests := 2; cog := empty_world |} 0%nat false).
  reflexivity.
Defined.

Lemma safe_edit_effect_witness :
  (Done tt : outcome unit) = Done tt
  /\ [fallback_post (Some "Done") (Some [])]
     = ([] ++ [fallback_post (Some "Done") (Some [])])%list.
Proof.
  exact (safe_edit_effect 0%nat (Some "Done") (Some []) fresh_session
           {| posts := [fallback_post (Some "Done") (Some [])]; response_at := None;
              requests := 2; cog := empty_world |} (Done tt) eq_refl).
Defined.

Lemma live_matches_expired_witness :
  live_matches caller (Ret (upcoming_payload [VDict flat_record; VStr "TBD"]))
    fresh_session
  = (Done tt,
     {| posts := [{| public := true; text := Some "Live matches (1 shown):";
                     embeds := [flat_pending_embed] |}];
        response_at := None; requests := 3; cog := after_read empty_world |}).
Proof.
  assert (normalize_all (Some true) [VDict flat_record; VStr "TBD"]
          = Ret [flat_live_minimal]) as Hnorm by (vm_compute; reflexivity).
  assert (embeds_of true (firstn 10 [flat_live_minimal]) (cog fresh_session)
          = (Ret [flat_pending_embed], after_read empty_world)) as Hemb
    by (vm_compute; reflexivity).
  exact (live_matches_expired caller
           (Ret (upcoming_payload [VDict flat_record; VStr "TBD"]))
           (VList [VDict flat_record; VStr "TBD"])
           [VDict flat_record; VStr "TBD"] NotFound fresh_session
           eq_refl eq_refl eq_refl eq_refl eq_refl _ _ _ Hnorm Hemb).
Defined.

End expired_examples.

Section offline_examples.
#[local] Existing Instance offline.

Lemma quick_ack_fails_twice_witness :
  (reply (requests fresh_session) <> None
   /\ reply (S (requests fresh_session)) = Some HTTPException
   /\ posts {| posts := []; response_at := None; requests := 2; cog := empty_world |}
      = posts fresh_session)
  \/ (reply (requests fresh_session) = None
      /\ reply (S (requests fresh_session)) <> None
      /\ reply (S (S (requests fresh_session))) = Some HTTPException
      /\ posts {| posts := []; response_at := None; requests := 2; cog := empty_world |}
         = (posts fresh_session ++ [response_post "Searching" true])%list).
Proof. apply (quick_ack_fails_twice caller "Searching" true). reflexivity. Defined.

End offline_examples.

Section steady_examples.
#[local] Existing Instance utc_runtime.
#[local] Existing Instance steady.

Lemma live_matches_working_witness :
  exists norm,
    normalize_all (Some true) [VDict flat_record; VStr "TBD"] = Ret norm
    /\ length norm = length (List.filter is_dict [VDict flat_record; VStr "TBD"])
    /\ match embeds_of true (firstn 10 norm) (cog fresh_session) with
       | (Ret embs, w') =>
           live_matches caller (Ret (upcoming_payload [VDict flat_record; VStr "TBD"]))
             fresh_session
           = (Done tt,
              {| posts :=
                   posts fresh_session
                   ++ [{| public := false;
                          text := Some
                            match norm with
                            | [] => "No live matches right now."
                            | _ => "Live matches ("
                                   +:+ pretty (Z.min (Z.of_nat (length norm)) 10)
                                   +:+ " shown):"
                            end;
                          embeds := embs |}];
                 response_at := Some (length (posts fresh_session));
                 requests := S (S (S (requests fresh_session)));
                 cog := w' |})
           /\ length embs = Nat.min (length norm) 10
       | (Raise e, w') =>
           live_matches caller (Ret (upcoming_payload [VDict flat_record; VStr "TBD"]))
             fresh_session
           = (Failed (Python e),
              {| posts := posts fresh_session
                          ++ [response_post "Checking live matches…" true];
                 response_at := Some (length (posts fresh_session));
                 requests := S (S (requests fresh_session));
                 cog := w' |})
       end.
Proof.
  apply (live_matches_working caller _ (VList [VDict flat_record; VStr "TBD"]));
    reflexivity.
Defined.

Lemma live_matches_fetch_escapes_witness :
  live_matches caller (Ret null_data_payload) fresh_session
  = (Failed (Python AttributeError),
     {| posts := [response_post "Checking live matches…" true];
        response_at := Some 0%nat; requests := 2; cog := empty_world |}).
Proof. apply live_matches_fetch_escapes; reflexivity. Defined.

End steady_examples.
